(** * peetch: the eBPF probes of [peetch_uprobes.c]

    A shallow embedding of the four probe handlers (the [connect]
    tracepoint, [SSL_read], its return probe [SSL_read_ret] and [SSL_write])
    together with their helpers, followed by the properties of the
    per-process correlation that the written specification states. *)

From Stdlib Require Import ZArith Lia.
From Stdlib Require Import Strings.Byte.
From stdpp Require Import base option list strings gmap.

Open Scope Z_scope.

(** ** Machine integers

    C integers are [Z] with the conversions written out. *)

Definition to_u16 (z : Z) : Z := z mod 2 ^ 16.
Definition to_u32 (z : Z) : Z := z mod 2 ^ 32.
Definition to_u64 (z : Z) : Z := z mod 2 ^ 64.

(** Conversion to [int]: the low 32 bits, read as two's complement. *)
Definition to_s32 (z : Z) : Z := (z + 2 ^ 31) mod 2 ^ 32 - 2 ^ 31.

(** [if (ret)] on an [int]. *)
Definition nonzero (z : Z) : bool := negb (z =? 0).

(** The value of a scalar field laid out in memory, least significant
    byte first (the hosts the probes are loaded on are little-endian). *)
Fixpoint le_decode (bs : list byte) : Z :=
  match bs with
  | [] => 0
  | b :: bs' => Z.of_N (Byte.to_N b) + 256 * le_decode bs'
  end.

(** ** Cross-space reads

    An address space is a partial map from addresses to bytes;
    [bpf_probe_read] copies [size] bytes or fails as a whole, in which case
    the kernel helper clears the destination and returns a negative code. *)

Definition memory := Z -> option byte.

Fixpoint read_bytes (m : memory) (size : nat) (addr : Z) : option (list byte) :=
  match size with
  | O => Some []
  | S n =>
      match m addr, read_bytes m n (addr + 1) with
      | Some b, Some bs => Some (b :: bs)
      | _, _ => None
      end
  end.

Definition EFAULT : Z := 14.

Definition bpf_probe_read (m : memory) (size : nat) (addr : Z) : Z * list byte :=
  match read_bytes m size addr with
  | Some bs => (0, bs)
  | None => (- EFAULT, replicate size x00)
  end.

(** ** Data structures *)

Definition COMM_MAX_LEN : nat := 64.
Definition MESSAGE_MAX_LEN : nat := 64.
Definition CIPHERSUITE_MAX_LEN : nat := 32.
Definition MASTER_SECRET_MAX_LEN : nat := 48.
Definition AF_INET : Z := 2.

(** [struct tls_event_t], the record sent to userland. *)
Record tls_event_t := {
  ev_addr : Z;
  ev_port : Z;
  ev_tls_version : Z;
  ev_comm : list byte;
  ev_message : list byte;
  ev_message_length : Z;
  ev_pid : Z;
  ev_is_read : Z
}.

(** [struct SSL_buffer_t]. *)
Record SSL_buffer_t := {
  buf_ptr : Z;
  buf_length : Z;
  buf_tls_version : Z;
  buf_is_read : Z
}.

(** [struct TLS_information_t]. *)
Record TLS_information_t := {
  ciphersuite : list byte;
  master_secret : list byte
}.

(** The fields of [struct sockaddr_in] the tracepoint looks at, and their
    place in the 16 bytes copied from the caller. *)
Record sockaddr_in := {
  sin_family : Z;
  sin_port : Z;
  sin_addr : Z
}.

Definition sizeof_sockaddr_in : nat := 16.

Definition decode_sockaddr_in (bs : list byte) : sockaddr_in :=
  {| sin_family := le_decode (take 2 bs);
     sin_port := le_decode (take 2 (drop 2 bs));
     sin_addr := le_decode (take 4 (drop 4 bs)) |}.

(** ** The tables

    [BPF_HASH(name, key_type, leaf_type, size)] takes its last three
    arguments optionally, with [u64], [u64] and 10240 as defaults.
    [BPF_HASH(pid_cache, u32)] and [BPF_HASH(SSL_read_buffers, u32)] name a
    key type only, so their leaf is a [u64]: this is why both [update] calls
    cast the structure's address to [u64*], and why only the first eight
    bytes of the structure reach the table.
    [BPF_HASH(tls_information_cache, u32, struct TLS_information_t)] names
    its leaf type, is updated without a cast and stores the whole
    structure.

    - The first eight bytes of [tls_event_t] are [addr], [port] and
      [tls_version]; the tracepoint leaves [tls_version] at zero and nothing
      reads it back, so a [pid_cache] leaf is the pair below.
    - The first eight bytes of [SSL_buffer_t] are exactly [ptr]. *)

Record pid_cache_leaf := {
  leaf_addr : Z;
  leaf_port : Z
}.

Definition pid_cache_leaf_of (e : tls_event_t) : pid_cache_leaf :=
  {| leaf_addr := ev_addr e; leaf_port := ev_port e |}.

Definition SSL_read_buffers_leaf_of (b : SSL_buffer_t) : Z := buf_ptr b.

(** The state the probes share: the three tables, the perf output stream
    [tls_events] (oldest first) and the trace pipe written by
    [bpf_trace_printk] (one entry per line, the newline left out). Table
    and ring capacity belong to the host and are not modelled: [update]
    always stores, [perf_submit] always appends. *)
Record state := {
  pid_cache : gmap Z pid_cache_leaf;
  SSL_read_buffers : gmap Z Z;
  tls_information_cache : gmap Z TLS_information_t;
  tls_events : list tls_event_t;
  trace_pipe : list string
}.

Definition initial_state : state :=
  {| pid_cache := ∅; SSL_read_buffers := ∅; tls_information_cache := ∅;
     tls_events := []; trace_pipe := [] |}.

Definition set_pid_cache (f : gmap Z pid_cache_leaf -> gmap Z pid_cache_leaf)
    (s : state) : state :=
  {| pid_cache := f (pid_cache s);
     SSL_read_buffers := SSL_read_buffers s;
     tls_information_cache := tls_information_cache s;
     tls_events := tls_events s;
     trace_pipe := trace_pipe s |}.

Definition set_SSL_read_buffers (f : gmap Z Z -> gmap Z Z) (s : state) : state :=
  {| pid_cache := pid_cache s;
     SSL_read_buffers := f (SSL_read_buffers s);
     tls_information_cache := tls_information_cache s;
     tls_events := tls_events s;
     trace_pipe := trace_pipe s |}.

Definition set_tls_information_cache
    (f : gmap Z TLS_information_t -> gmap Z TLS_information_t)
    (s : state) : state :=
  {| pid_cache := pid_cache s;
     SSL_read_buffers := SSL_read_buffers s;
     tls_information_cache := f (tls_information_cache s);
     tls_events := tls_events s;
     trace_pipe := trace_pipe s |}.

Definition perf_submit (e : tls_event_t) (s : state) : state :=
  {| pid_cache := pid_cache s;
     SSL_read_buffers := SSL_read_buffers s;
     tls_information_cache := tls_information_cache s;
     tls_events := tls_events s ++ [e];
     trace_pipe := trace_pipe s |}.

Definition bpf_trace_printk (msg : string) (s : state) : state :=
  {| pid_cache := pid_cache s;
     SSL_read_buffers := SSL_read_buffers s;
     tls_information_cache := tls_information_cache s;
     tls_events := tls_events s;
     trace_pipe := trace_pipe s ++ [msg] |}.

(** [if (ret) bpf_trace_printk(msg);] *)
Definition trace_if_failed (ret : Z) (msg : string) (s : state) : state :=
  if nonzero ret then bpf_trace_printk msg s else s.

(** ** What a probe sees when it fires

    The registers of [struct pt_regs] that the handlers read, the
    tracepoint's [args->uservaddr], and the task the probe interrupted: its
    pid/tgid word, the bytes [bpf_get_current_comm] writes, and its address
    space. [leaf_tail] is kernel memory: the bytes that follow the 8-byte
    leaf handed out by [SSL_read_buffers.lookup] (offset 0 is the first byte
    after the leaf); [SSL_read_ret] copies [sizeof(struct SSL_buffer_t)]
    bytes from the leaf's address and so reads 16 of them. *)
Record probe_ctx := {
  PT_REGS_PARM1 : Z;
  PT_REGS_PARM2 : Z;
  PT_REGS_PARM3 : Z;
  PT_REGS_RC : Z;
  uservaddr : Z;
  current_pid_tgid : Z;
  current_comm : list byte;
  user_mem : memory;
  leaf_tail : memory
}.

(** [bpf_get_current_pid_tgid() & 0xFFFFFFFF], stored in a [u32]. *)
Definition current_pid (c : probe_ctx) : Z :=
  Z.land (current_pid_tgid c) 0xFFFFFFFF.

(** The constants the loader substitutes into the program text before it is
    compiled. [DIRECTIONS] stands for a C condition evaluated in
    [SSL_read_write]; the flush policy selects by direction, so it is taken
    as a predicate on the descriptor's [is_read] (a fixed policy is a
    constant predicate). *)
Record config := {
  SSL_SESSION_OFFSET : Z;
  MASTER_SECRET_OFFSET : Z;
  SSL_CIPHER_OFFSET : Z;
  DIRECTIONS : Z -> bool
}.

(** ** The handlers *)

Section Probes.

Variable cfg : config.

(** [TRACEPOINT_PROBE(syscalls, sys_enter_connect)] *)
Definition sys_enter_connect (c : probe_ctx) (s : state) : state :=
  let '(ret, bytes) := bpf_probe_read (user_mem c) sizeof_sockaddr_in (uservaddr c) in
  if nonzero ret then
    bpf_trace_printk "sys_enter_connect() - bpf_probe_read() failed" s
  else
    let addr_in := decode_sockaddr_in bytes in
    if negb (sin_family addr_in =? AF_INET) then s
    else
      let pid := current_pid c in
      let event :=
        {| ev_addr := sin_addr addr_in; ev_port := sin_port addr_in;
           ev_tls_version := 0; ev_comm := replicate COMM_MAX_LEN x00;
           ev_message := replicate MESSAGE_MAX_LEN x00;
           ev_message_length := 0; ev_pid := 0; ev_is_read := 0 |} in
      set_pid_cache (insert pid (pid_cache_leaf_of event)) s.

(** [get_tls_version]: the [u16] result and the state with its trace line.
    [struct ssl_st] is one [int]. *)
Definition get_tls_version (c : probe_ctx) (ssl_st_ptr : Z) (s : state) : Z * state :=
  let '(ret, bytes) := bpf_probe_read (user_mem c) 4 ssl_st_ptr in
  if nonzero ret then
    (to_u16 (-1), bpf_trace_printk "get_tls_version() - bpf_probe_read() failed" s)
  else
    let version := to_s32 (le_decode bytes) in
    (to_u16 version, s).

(** [parse_session]: every copy is attempted whatever became of the one
    before it; a failed copy leaves zeroes in its destination. *)
Definition parse_session (c : probe_ctx) (s : state) : state :=
  let ssl_st_ptr := PT_REGS_PARM1 c in
  let ssl_session_st_ptr := to_u64 (ssl_st_ptr + SSL_SESSION_OFFSET cfg) in
  let '(ret, bytes) := bpf_probe_read (user_mem c) 8 ssl_session_st_ptr in
  let address := le_decode bytes in
  let s := trace_if_failed ret "parse_session() #1 - bpf_probe_read() failed" s in
  let ms_ptr := to_u64 (address + MASTER_SECRET_OFFSET cfg) in
  let '(ret, ms) := bpf_probe_read (user_mem c) MASTER_SECRET_MAX_LEN ms_ptr in
  let s := trace_if_failed ret "parse_session() #2 - bpf_probe_read() failed" s in
  let ssl_cipher_st_ptr := to_u64 (address + SSL_CIPHER_OFFSET cfg) in
  let '(ret, bytes) := bpf_probe_read (user_mem c) 8 ssl_cipher_st_ptr in
  let address := le_decode bytes in
  let s := trace_if_failed ret "parse_session() #3 - bpf_probe_read() failed" s in
  let ssl_cipher_st_ptr := to_u64 (address + 8) in
  let '(ret, bytes) := bpf_probe_read (user_mem c) 8 ssl_cipher_st_ptr in
  let address := le_decode bytes in
  let s := trace_if_failed ret "parse_session() #4 - bpf_probe_read() failed" s in
  let cs_ptr := address in
  let '(ret, cs) := bpf_probe_read (user_mem c) CIPHERSUITE_MAX_LEN cs_ptr in
  let s := trace_if_failed ret "parse_session() #5 - bpf_probe_read() failed" s in
  let tls_information := {| ciphersuite := cs; master_secret := ms |} in
  let pid := current_pid c in
  set_tls_information_cache (insert pid tls_information) s.

(** [SSL_read_write]; [buffer] is [None] for a null pointer. *)
Definition SSL_read_write (c : probe_ctx) (tls_version : Z)
    (buffer : option SSL_buffer_t) (s : state) : state :=
  match buffer with
  | None => s
  | Some buffer =>
      let pid := current_pid c in
      match pid_cache s !! pid with
      | None => s
      | Some event =>
          let '(ret, message) :=
            bpf_probe_read (user_mem c) MESSAGE_MAX_LEN (buf_ptr buffer) in
          if nonzero ret then
            bpf_trace_printk "SSL_read_write() - bpf_probe_read() failed" s
          else
            let new_event :=
              {| ev_addr := leaf_addr event; ev_port := leaf_port event;
                 ev_tls_version := tls_version; ev_comm := current_comm c;
                 ev_message := message;
                 ev_message_length := buf_length buffer;
                 ev_pid := pid; ev_is_read := buf_is_read buffer |} in
            let s := perf_submit new_event s in
            if DIRECTIONS cfg (buf_is_read buffer)
            then set_pid_cache (delete pid) s
            else s
      end
  end.

(** [SSL_read]. The two fields the source leaves unset are written as 0
    here; like [tls_version] they lie beyond the eight bytes that [update]
    copies into the table. *)
Definition SSL_read (c : probe_ctx) (s : state) : state :=
  let pid := current_pid c in
  let ssl_st_ptr := PT_REGS_PARM1 c in
  let '(version, s) := get_tls_version c ssl_st_ptr s in
  let buffer :=
    {| buf_ptr := to_u64 (PT_REGS_PARM2 c); buf_length := 0;
       buf_tls_version := version; buf_is_read := 0 |} in
  set_SSL_read_buffers (insert pid (SSL_read_buffers_leaf_of buffer)) s.

(** The structure [SSL_read_ret] copies out of the table: 24 bytes from the
    address of an 8-byte leaf, so [ptr] is the leaf and the other fields are
    what [leaf_tail] holds at their offsets (8, 12 and 16). *)
Definition read_leaf_as_buffer (c : probe_ctx) (leaf : Z) : Z * SSL_buffer_t :=
  let '(ret, tail) := bpf_probe_read (leaf_tail c) 16 0 in
  (ret,
   {| buf_ptr := leaf;
      buf_length := le_decode (take 4 tail);
      buf_tls_version := le_decode (take 4 (drop 4 tail));
      buf_is_read := le_decode (take 4 (drop 8 tail)) |}).

(** [SSL_read_ret]. [new_buffer.tls_version] is left unset by the source and
    never read. *)
Definition SSL_read_ret (c : probe_ctx) (s : state) : state :=
  let buffer_length := to_s32 (PT_REGS_RC c) in
  if buffer_length =? -1 then s
  else
    let pid := current_pid c in
    match SSL_read_buffers s !! pid with
    | None => s
    | Some leaf =>
        let new_buffer :=
          {| buf_ptr := leaf; buf_length := to_u32 buffer_length;
             buf_tls_version := 0; buf_is_read := 1 |} in
        let '(ret, tmp) := read_leaf_as_buffer c leaf in
        if nonzero ret then s
        else
          let s := SSL_read_write c (to_u16 (buf_tls_version tmp)) (Some new_buffer) s in
          set_SSL_read_buffers (delete pid) s
    end.

(** [SSL_write]. *)
Definition SSL_write (c : probe_ctx) (s : state) : state :=
  let buffer :=
    {| buf_ptr := to_u64 (PT_REGS_PARM2 c);
       buf_length := to_u32 (PT_REGS_PARM3 c);
       buf_tls_version := 0; buf_is_read := 0 |} in
  let ssl_st_ptr := PT_REGS_PARM1 c in
  let '(tls_version, s) := get_tls_version c ssl_st_ptr s in
  let s := parse_session c s in
  SSL_read_write c tls_version (Some buffer) s.

(** ** Runs

    The host fires one handler at a time on the shared tables. *)
Inductive probe :=
  | Connect (c : probe_ctx)
  | ReadEntry (c : probe_ctx)
  | ReadReturn (c : probe_ctx)
  | WriteEntry (c : probe_ctx).

Definition probe_context (p : probe) : probe_ctx :=
  match p with
  | Connect c | ReadEntry c | ReadReturn c | WriteEntry c => c
  end.

Definition fire (s : state) (p : probe) : state :=
  match p with
  | Connect c => sys_enter_connect c s
  | ReadEntry c => SSL_read c s
  | ReadReturn c => SSL_read_ret c s
  | WriteEntry c => SSL_write c s
  end.

Definition run (s : state) (ps : list probe) : state := foldl fire s ps.

(** The events a step or a run added to the stream. *)
Definition emitted (before after : state) : list tls_event_t :=
  drop (length (tls_events before)) (tls_events after).

End Probes.

(** * Vocabulary of the statements

    What a handler submits, spelled as a function of the state it starts
    from, and the observations the properties speak about. *)

(** What [SSL_read_write] submits for a descriptor [b], given the cached
    connection leaf and the 64 bytes copied from the buffer address. *)
Definition new_event_of (c : probe_ctx) (tls_version : Z) (b : SSL_buffer_t)
    (leaf : pid_cache_leaf) (message : list byte) : tls_event_t :=
  {| ev_addr := leaf_addr leaf; ev_port := leaf_port leaf;
     ev_tls_version := tls_version; ev_comm := current_comm c;
     ev_message := message; ev_message_length := buf_length b;
     ev_pid := current_pid c; ev_is_read := buf_is_read b |}.

Definition submitted (c : probe_ctx) (tls_version : Z) (b : SSL_buffer_t)
    (s : state) : list tls_event_t :=
  match pid_cache s !! current_pid c,
        read_bytes (user_mem c) MESSAGE_MAX_LEN (buf_ptr b) with
  | Some leaf, Some message => [new_event_of c tls_version b leaf message]
  | _, _ => []
  end.

(** The bytes the caller asked [SSL_write] to send: [num] bytes at [buf],
    when the probe can read them. *)
Definition written_buffer (c : probe_ctx) : option (list byte) :=
  read_bytes (user_mem c) (Z.to_nat (to_u32 (PT_REGS_PARM3 c)))
    (to_u64 (PT_REGS_PARM2 c)).

(** What the tracepoint finds at [uservaddr], when the copy succeeds. *)
Definition observed_sockaddr (c : probe_ctx) : option sockaddr_in :=
  decode_sockaddr_in <$> read_bytes (user_mem c) sizeof_sockaddr_in (uservaddr c).

Definition observes_ipv4 (c : probe_ctx) : bool :=
  match observed_sockaddr c with
  | Some a => sin_family a =? AF_INET
  | None => false
  end.

(** [p] is a successful IPv4 connection observation of process [pid]. *)
Definition ipv4_connect_of (pid : Z) (p : probe) : bool :=
  match p with
  | Connect c => (current_pid c =? pid) && observes_ipv4 c
  | _ => false
  end.

(** The descriptor [SSL_read_ret] hands to [SSL_read_write]. *)
Definition finalized_buffer (c : probe_ctx) (leaf : Z) : SSL_buffer_t :=
  {| buf_ptr := leaf; buf_length := to_u32 (to_s32 (PT_REGS_RC c));
     buf_tls_version := 0; buf_is_read := 1 |}.

(** The version [SSL_read_ret] hands to [SSL_read_write]: the [u32] found
    twelve bytes after the start of the leaf, cut to 16 bits. *)
Definition version_after_leaf (tail : list byte) : Z :=
  to_u16 (le_decode (take 4 (drop 4 tail))).

Definition submitted_at_return (c : probe_ctx) (s : state) : list tls_event_t :=
  if to_s32 (PT_REGS_RC c) =? -1 then []
  else
    match SSL_read_buffers s !! current_pid c, read_bytes (leaf_tail c) 16 0 with
    | Some leaf, Some tail =>
        submitted c (version_after_leaf tail) (finalized_buffer c leaf) s
    | _, _ => []
    end.

(** The state without its trace pipe: the tables and the event stream. *)
Definition erase_trace (s : state) : state :=
  {| pid_cache := pid_cache s;
     SSL_read_buffers := SSL_read_buffers s;
     tls_information_cache := tls_information_cache s;
     tls_events := tls_events s;
     trace_pipe := [] |}.

(** ** Concrete scenarios

    Address spaces and probe contexts used to run the handlers on explicit
    inputs. *)

Module Scenario.

(** [bs] mapped at [base], nothing else. *)
Definition bytes_at (base : Z) (bs : list byte) : memory :=
  fun a => if (base <=? a) && (a <? base + Z.of_nat (length bs))
           then bs !! Z.to_nat (a - base) else None.

Definition both (m1 m2 : memory) : memory :=
  fun a => match m1 a with Some b => Some b | None => m2 a end.

Definition unmapped : memory := fun _ => None.

(** Offsets of one build of the traced library; every copy is kept. *)
Definition cfg_keep : config :=
  {| SSL_SESSION_OFFSET := 0x510; MASTER_SECRET_OFFSET := 0x50;
     SSL_CIPHER_OFFSET := 0x2f8; DIRECTIONS := fun _ => false |}.

(** The same offsets, the connection record flushed after every event. *)
Definition cfg_flush : config :=
  {| SSL_SESSION_OFFSET := 0x510; MASTER_SECRET_OFFSET := 0x50;
     SSL_CIPHER_OFFSET := 0x2f8; DIRECTIONS := fun _ => true |}.

Definition pid_tgid_1234 : Z := 1234 * 2 ^ 32 + 1234.

Definition comm_curl : list byte :=
  [x63; x75; x72; x6c] ++ replicate 60 x00.

(** [AF_INET], port 443 in network order, 203.0.113.5. *)
Definition sockaddr_v4 : list byte :=
  [x02; x00; x01; xbb; xcb; x00; x71; x05] ++ replicate 8 x00.

(** [AF_INET], port 80 in network order, 198.51.100.7. *)
Definition sockaddr_v4_earlier : list byte :=
  [x02; x00; x00; x50; xc6; x33; x64; x07] ++ replicate 8 x00.

(** [AF_INET6] (10), port 443; the 16 bytes the tracepoint copies. *)
Definition sockaddr_v6 : list byte :=
  [x0a; x00; x01; xbb; x00; x00; x00; x00; x20; x01; x0d; xb8] ++ replicate 4 x00.

Definition at_connect (sockaddr : list byte) : probe_ctx :=
  {| PT_REGS_PARM1 := 0; PT_REGS_PARM2 := 0; PT_REGS_PARM3 := 0; PT_REGS_RC := 0;
     uservaddr := 0x6000; current_pid_tgid := pid_tgid_1234;
     current_comm := comm_curl; user_mem := bytes_at 0x6000 sockaddr;
     leaf_tail := unmapped |}.

(** A handle whose [version] field is TLS 1.2 (0x0303). *)
Definition ssl_st_tls12 : memory := bytes_at 0x5000 [x03; x03; x00; x00].

(** The ten bytes [GET / HTTP]. *)
Definition get_request : list byte :=
  [x47; x45; x54; x20; x2f; x20; x48; x54; x54; x50].

Definition hundred_bytes : list byte := replicate 100 x41.

(** [SSL_write(0x5000, 0x7000, num)] with [data] mapped at the buffer. *)
Definition at_write (data : list byte) (num : Z) : probe_ctx :=
  {| PT_REGS_PARM1 := 0x5000; PT_REGS_PARM2 := 0x7000; PT_REGS_PARM3 := num;
     PT_REGS_RC := 0; uservaddr := 0; current_pid_tgid := pid_tgid_1234;
     current_comm := comm_curl;
     user_mem := both ssl_st_tls12 (bytes_at 0x7000 data);
     leaf_tail := unmapped |}.

(** [SSL_read(0x5000, buf, 4096)] entering, with [handle] as the caller's
    address space. *)
Definition at_read_entry (handle : memory) (buf : Z) : probe_ctx :=
  {| PT_REGS_PARM1 := 0x5000; PT_REGS_PARM2 := buf; PT_REGS_PARM3 := 4096;
     PT_REGS_RC := 0; uservaddr := 0; current_pid_tgid := pid_tgid_1234;
     current_comm := comm_curl; user_mem := handle; leaf_tail := unmapped |}.

(** What lies behind a leaf in a preallocated table: the list node that
    heads the next element, two kernel pointers
    (0xffff888012345678 and 0xffff8880aabbccdd). *)
Definition next_element_header : list byte :=
  [x78; x56; x34; x12; x80; x88; xff; xff;
   xdd; xcc; xbb; xaa; x80; x88; xff; xff].

(** [SSL_read] returning with [rc] in the result register; [data] is mapped
    at 0x8000. *)
Definition at_read_return (data : list byte) (rc : Z) : probe_ctx :=
  {| PT_REGS_PARM1 := 0; PT_REGS_PARM2 := 0; PT_REGS_PARM3 := 0;
     PT_REGS_RC := rc; uservaddr := 0; current_pid_tgid := pid_tgid_1234;
     current_comm := comm_curl;
     user_mem := both ssl_st_tls12 (bytes_at 0x8000 data);
     leaf_tail := bytes_at 0 next_element_header |}.

(** The state after one IPv4 connection of process 1234. *)
Definition connected : state :=
  sys_enter_connect (at_connect sockaddr_v4) initial_state.

End Scenario.

(** What one copy of [parse_session] leaves in its destination: the bytes
    at [addr], or zeroes when they cannot be copied. *)
Definition copied (m : memory) (size : nat) (addr : Z) : list byte :=
  default (replicate size x00) (read_bytes m size addr).

(** The record [parse_session] builds for a call: the session pointer is
    copied from handle + [SSL_SESSION_OFFSET], the master secret from
    session + [MASTER_SECRET_OFFSET], the cipher pointer from session +
    [SSL_CIPHER_OFFSET], the name pointer from cipher + 8 and the name from
    there. *)
Definition session_secrets (cfg : config) (c : probe_ctx) : TLS_information_t :=
  let session :=
    le_decode (copied (user_mem c) 8
                 (to_u64 (PT_REGS_PARM1 c + SSL_SESSION_OFFSET cfg))) in
  let cipher :=
    le_decode (copied (user_mem c) 8 (to_u64 (session + SSL_CIPHER_OFFSET cfg))) in
  let name := le_decode (copied (user_mem c) 8 (to_u64 (cipher + 8))) in
  {| ciphersuite := copied (user_mem c) CIPHERSUITE_MAX_LEN name;
     master_secret :=
       copied (user_mem c) MASTER_SECRET_MAX_LEN
         (to_u64 (session + MASTER_SECRET_OFFSET cfg)) |}.

(** ** Vocabulary of the further properties *)

(** The fields of an event fit the widths [struct tls_event_t] gives them. *)
Definition event_fits (e : tls_event_t) : Prop :=
  0 <= ev_addr e < 2 ^ 32 /\ 0 <= ev_port e < 2 ^ 16 /\
  0 <= ev_tls_version e < 2 ^ 16 /\
  length (ev_message e) = MESSAGE_MAX_LEN /\
  0 <= ev_message_length e < 2 ^ 32 /\
  0 <= ev_pid e < 2 ^ 32 /\
  (ev_is_read e = 0 \/ ev_is_read e = 1).

(** A connection leaf holds a 32-bit address and a 16-bit port. *)
Definition leaf_fits (l : pid_cache_leaf) : Prop :=
  0 <= leaf_addr l < 2 ^ 32 /\ 0 <= leaf_port l < 2 ^ 16.

(** Every cached leaf and every event in the stream fits. *)
Definition tables_fit (s : state) : Prop :=
  (forall k l, pid_cache s !! k = Some l -> leaf_fits l) /\
  Forall event_fits (tls_events s).

(** Whether [SSL_read_write] reaches [pid_cache.delete]: an event was
    submitted and [DIRECTIONS] holds for the descriptor. *)
Definition flushes (cfg : config) (c : probe_ctx) (tls_version : Z)
    (b : SSL_buffer_t) (s : state) : bool :=
  match submitted c tls_version b s with
  | [] => false
  | _ :: _ => DIRECTIONS cfg (buf_is_read b)
  end.

(** Two states with the same connection records, the same pending buffers
    and the same event stream; session secrets and trace lines may differ. *)
Definition same_events (s s' : state) : Prop :=
  pid_cache s = pid_cache s' /\
  SSL_read_buffers s = SSL_read_buffers s' /\
  tls_events s = tls_events s'.

(** [p] is a write entry fired in process [pid]. *)
Definition write_probe_of (pid : Z) (p : probe) : bool :=
  match p with
  | WriteEntry c => current_pid c =? pid
  | Connect _ | ReadEntry _ | ReadReturn _ => false
  end.

(** The probes whose handler calls [SSL_read_write]. *)
Definition may_emit (p : probe) : bool :=
  match p with
  | ReadReturn _ | WriteEntry _ => true
  | Connect _ | ReadEntry _ => false
  end.

(** [p] is the entry or the return probe of the read routine, fired in
    process [pid]. *)
Definition read_probe_of (pid : Z) (p : probe) : bool :=
  match p with
  | ReadEntry c | ReadReturn c => current_pid c =? pid
  | Connect _ | WriteEntry _ => false
  end.

(** The events of [l] that name process [pid]. *)
Definition events_of (pid : Z) (l : list tls_event_t) : list tls_event_t :=
  filter (fun e => ev_pid e = pid) l.

(** The descriptor [SSL_write] builds from its arguments. *)
Definition write_buffer (c : probe_ctx) : SSL_buffer_t :=
  {| buf_ptr := to_u64 (PT_REGS_PARM2 c);
     buf_length := to_u32 (PT_REGS_PARM3 c);
     buf_tls_version := 0; buf_is_read := 0 |}.

(** A handle with a session behind it, laid out for the offsets of
    [Scenario.cfg_keep]: the session pointer at 0x5000 + 0x510, the master
    secret at session + 0x50, the cipher pointer at session + 0x2f8, the name
    pointer at cipher + 8 and 32 bytes of name behind it. *)
Module SessionScenario.

Definition pointer (a : list byte) : list byte := a ++ replicate 5 x00.

Definition secret : list byte := replicate 48 xab.

(** [TLS_AES_128_GCM_SHA256], padded with zeroes to 32 bytes. *)
Definition cipher_name : list byte :=
  [x54; x4c; x53; x5f; x41; x45; x53; x5f; x31; x32; x38; x5f;
   x47; x43; x4d; x5f; x53; x48; x41; x32; x35; x36] ++ replicate 10 x00.

Definition with_session : memory :=
  Scenario.both (Scenario.bytes_at 0x5000 [x04; x03; x00; x00])
    (Scenario.both (Scenario.bytes_at 0x5510 (pointer [x00; x00; x01]))
       (Scenario.both (Scenario.bytes_at 0x10050 secret)
          (Scenario.both (Scenario.bytes_at 0x102f8 (pointer [x00; x00; x02]))
             (Scenario.both (Scenario.bytes_at 0x20008 (pointer [x00; x00; x03]))
                (Scenario.both (Scenario.bytes_at 0x30000 cipher_name)
                   (Scenario.bytes_at 0x7000 Scenario.hundred_bytes)))))).

(** [SSL_write(0x5000, 0x7000, 100)] in process 1234. *)
Definition at_write : probe_ctx :=
  {| PT_REGS_PARM1 := 0x5000; PT_REGS_PARM2 := 0x7000; PT_REGS_PARM3 := 100;
     PT_REGS_RC := 0; uservaddr := 0;
     current_pid_tgid := Scenario.pid_tgid_1234;
     current_comm := Scenario.comm_curl;
     user_mem := with_session; leaf_tail := Scenario.unmapped |}.

(** The same call with nothing readable in the caller. *)
Definition at_write_unreadable : probe_ctx :=
  {| PT_REGS_PARM1 := 0x5000; PT_REGS_PARM2 := 0x7000; PT_REGS_PARM3 := 100;
     PT_REGS_RC := 0; uservaddr := 0;
     current_pid_tgid := Scenario.pid_tgid_1234;
     current_comm := Scenario.comm_curl;
     user_mem := Scenario.unmapped; leaf_tail := Scenario.unmapped |}.

(** A second process, 4321, entering [SSL_read]. *)
Definition other_read_entry : probe_ctx :=
  {| PT_REGS_PARM1 := 0x5000; PT_REGS_PARM2 := 0xa000; PT_REGS_PARM3 := 4096;
     PT_REGS_RC := 0; uservaddr := 0;
     current_pid_tgid := 4321 * 2 ^ 32 + 4321;
     current_comm := Scenario.comm_curl;
     user_mem := Scenario.ssl_st_tls12; leaf_tail := Scenario.unmapped |}.

End SessionScenario.

(** * Properties *)

Arguments SSL_read_write : simpl never.

(** Case analysis on every cross-space copy in the goal and on every test
    of its result. *)
Ltac split_reads :=
  repeat match goal with
    | |- context [bpf_probe_read ?m ?n ?a] =>
        destruct (bpf_probe_read m n a) as [? ?]
    end;
  unfold trace_if_failed;
  repeat match goal with
    | |- context [nonzero ?r] => destruct (nonzero r)
    end.

(** ** Reads *)

Lemma read_bytes_length m n a bs :
  read_bytes m n a = Some bs -> length bs = n.
Proof.
  revert a bs. induction n as [|n IH]; intros a bs; simpl.
  - by intros [= <-].
  - destruct (m a) as [b|]; [|done].
    destruct (read_bytes m n (a + 1)) as [bs'|] eqn:E; [|done].
    intros [= <-]. simpl. by rewrite (IH _ _ E).
Qed.

(** A shorter read at the same address returns a prefix of a longer one. *)
Lemma read_bytes_prefix m n k a bs :
  read_bytes m n a = Some bs -> (k <= n)%nat ->
  read_bytes m k a = Some (take k bs).
Proof.
  revert k a bs. induction n as [|n IH]; intros k a bs; simpl.
  - intros [= <-] Hk. by replace k with 0%nat by lia.
  - destruct (m a) as [b|] eqn:Ea; [|done].
    destruct (read_bytes m n (a + 1)) as [bs'|] eqn:E; [|done].
    intros [= <-] Hk. destruct k as [|k]; [done|]. simpl.
    rewrite Ea, (IH k _ _ E) by lia. done.
Qed.

Lemma read_bytes_common_prefix m n k a bs bs' :
  read_bytes m n a = Some bs -> read_bytes m k a = Some bs' ->
  take (n `min` k) bs = take (n `min` k) bs'.
Proof.
  intros Hn Hk.
  pose proof (read_bytes_prefix _ _ (n `min` k) _ _ Hn ltac:(lia)) as H1.
  pose proof (read_bytes_prefix _ _ (n `min` k) _ _ Hk ltac:(lia)) as H2.
  congruence.
Qed.

Lemma bpf_probe_read_ok m n a bs :
  read_bytes m n a = Some bs -> bpf_probe_read m n a = (0, bs).
Proof. unfold bpf_probe_read. by intros ->. Qed.

Lemma bpf_probe_read_failed m n a :
  read_bytes m n a = None -> bpf_probe_read m n a = (- EFAULT, replicate n x00).
Proof. unfold bpf_probe_read. by intros ->. Qed.

Lemma bpf_probe_read_length m n a :
  length (bpf_probe_read m n a).2 = n.
Proof.
  unfold bpf_probe_read. destruct (read_bytes m n a) as [bs|] eqn:E; simpl.
  - by apply read_bytes_length in E.
  - by rewrite length_replicate.
Qed.

(** ** The event stream only grows *)

Lemma emitted_app s s' l :
  tls_events s' = tls_events s ++ l -> emitted s s' = l.
Proof. unfold emitted. intros ->. by rewrite drop_app_length. Qed.

Lemma emitted_same s s' :
  tls_events s' = tls_events s -> emitted s s' = [].
Proof. intros H. apply emitted_app. by rewrite app_nil_r. Qed.

Section ProbeFacts.

Variable cfg : config.

Lemma SSL_read_write_tls_events c v b s :
  tls_events (SSL_read_write cfg c v (Some b) s) = tls_events s ++ submitted c v b s.
Proof.
  unfold SSL_read_write, submitted, bpf_probe_read.
  destruct (pid_cache s !! current_pid c) as [leaf|]; [|by rewrite app_nil_r].
  destruct (read_bytes _ _ _) as [msg|]; simpl; [|by rewrite app_nil_r].
  by destruct (DIRECTIONS cfg (buf_is_read b)).
Qed.

Lemma SSL_read_write_SSL_read_buffers c v b s :
  SSL_read_buffers (SSL_read_write cfg c v b s) = SSL_read_buffers s.
Proof.
  unfold SSL_read_write, bpf_probe_read. destruct b as [b|]; [|done].
  destruct (pid_cache s !! current_pid c) as [leaf|]; [|done].
  destruct (read_bytes _ _ _) as [msg|]; simpl; [|done].
  by destruct (DIRECTIONS cfg (buf_is_read b)).
Qed.

Lemma SSL_read_write_tls_information_cache c v b s :
  tls_information_cache (SSL_read_write cfg c v b s) = tls_information_cache s.
Proof.
  unfold SSL_read_write, bpf_probe_read. destruct b as [b|]; [|done].
  destruct (pid_cache s !! current_pid c) as [leaf|]; [|done].
  destruct (read_bytes _ _ _) as [msg|]; simpl; [|done].
  by destruct (DIRECTIONS cfg (buf_is_read b)).
Qed.

(** [SSL_read_write] never adds a connection record; it may drop the
    caller's. *)
Lemma SSL_read_write_pid_cache c v b s k :
  pid_cache (SSL_read_write cfg c v b s) !! k = None \/
  pid_cache (SSL_read_write cfg c v b s) !! k = pid_cache s !! k.
Proof.
  unfold SSL_read_write, bpf_probe_read. destruct b as [b|]; [|by right].
  destruct (pid_cache s !! current_pid c) as [leaf|]; [|by right].
  destruct (read_bytes _ _ _) as [msg|]; simpl; [|by right].
  destruct (DIRECTIONS cfg (buf_is_read b)); simpl; [|by right].
  destruct (decide (current_pid c = k)) as [->|Hne].
  - left. apply lookup_delete_eq.
  - right. by apply lookup_delete_ne.
Qed.

(** The version helper touches nothing but the trace pipe. *)
Lemma get_tls_version_tables c p s :
  let s' := (get_tls_version c p s).2 in
  pid_cache s' = pid_cache s /\ SSL_read_buffers s' = SSL_read_buffers s /\
  tls_information_cache s' = tls_information_cache s /\
  tls_events s' = tls_events s.
Proof.
  unfold get_tls_version. destruct (bpf_probe_read _ _ _) as [ret bytes].
  by destruct (nonzero ret).
Qed.

End ProbeFacts.

(** ** Write events (C1) *)

Lemma SSL_write_tls_events cfg c s :
  tls_events (SSL_write cfg c s) =
  tls_events s ++
  submitted c (get_tls_version c (PT_REGS_PARM1 c) s).1
    {| buf_ptr := to_u64 (PT_REGS_PARM2 c);
       buf_length := to_u32 (PT_REGS_PARM3 c);
       buf_tls_version := 0; buf_is_read := 0 |} s.
Proof.
  unfold SSL_write.
  destruct (get_tls_version c (PT_REGS_PARM1 c) s) as [v s1] eqn:Ev.
  pose proof (get_tls_version_tables c (PT_REGS_PARM1 c) s) as H.
  rewrite Ev in H. simpl in H. destruct H as (Hp & _ & _ & He).
  rewrite SSL_read_write_tls_events. unfold submitted.
  assert (pid_cache (parse_session cfg c s1) = pid_cache s1 /\
          tls_events (parse_session cfg c s1) = tls_events s1) as [-> ->].
  { unfold parse_session.
    repeat (destruct (bpf_probe_read _ _ _) as [? ?]).
    unfold trace_if_failed. by repeat (destruct (nonzero _)). }
  by rewrite Hp, He.
Qed.

(** C1, as the code has it: when the connection record of the calling
    process is cached and the 64-byte capture window at the buffer address
    can be copied, [SSL_write] submits exactly one event; its direction is
    write, its [message_length] is the third argument as a [u32], it carries
    the cached peer, and its [message] is the 64 bytes at the buffer address,
    which agree with the written buffer on the first min(64, length) bytes.
    When that 64-byte copy fails, nothing is emitted. *)
Theorem C1_write_emits_one_event cfg c s leaf :
  pid_cache s !! current_pid c = Some leaf ->
  (forall window,
     read_bytes (user_mem c) MESSAGE_MAX_LEN (to_u64 (PT_REGS_PARM2 c))
       = Some window ->
     exists e,
       emitted s (SSL_write cfg c s) = [e] /\
       ev_is_read e = 0 /\
       ev_message_length e = to_u32 (PT_REGS_PARM3 c) /\
       ev_pid e = current_pid c /\
       ev_addr e = leaf_addr leaf /\ ev_port e = leaf_port leaf /\
       ev_message e = window /\
       forall payload, written_buffer c = Some payload ->
         let n := (MESSAGE_MAX_LEN `min` Z.to_nat (ev_message_length e))%nat in
         take n (ev_message e) = take n payload) /\
  (read_bytes (user_mem c) MESSAGE_MAX_LEN (to_u64 (PT_REGS_PARM2 c)) = None ->
   emitted s (SSL_write cfg c s) = []).
Proof.
  intros Hleaf. split.
  - intros window Hwin. eexists. split.
    { apply emitted_app. rewrite SSL_write_tls_events. unfold submitted.
      cbn [buf_ptr]. rewrite Hleaf, Hwin. reflexivity. }
    simpl. repeat split; try reflexivity.
    intros payload Hpay. unfold written_buffer in Hpay.
    apply (read_bytes_common_prefix _ _ _ _ _ _ Hwin Hpay).
  - intros Hfail. apply emitted_same. rewrite SSL_write_tls_events.
    unfold submitted. cbn [buf_ptr]. rewrite Hleaf, Hfail. apply app_nil_r.
Qed.

Lemma C1_write_emits_one_event_witness :
  (exists e,
     emitted Scenario.connected
       (SSL_write Scenario.cfg_keep
          (Scenario.at_write Scenario.hundred_bytes 100) Scenario.connected) = [e] /\
     ev_is_read e = 0 /\ ev_message_length e = 100 /\ ev_pid e = 1234 /\
     ev_addr e = 0x057100cb /\ ev_port e = 0xbb01 /\
     ev_message e = replicate 64 x41) /\
  emitted Scenario.connected
    (SSL_write Scenario.cfg_keep
       (Scenario.at_write Scenario.get_request 10) Scenario.connected) = [].
Proof.
  split.
  - destruct (C1_write_emits_one_event Scenario.cfg_keep
                (Scenario.at_write Scenario.hundred_bytes 100) Scenario.connected
                {| leaf_addr := 0x057100cb; leaf_port := 0xbb01 |})
      as [Hok _]; [vm_compute; reflexivity|].
    destruct (Hok (replicate 64 x41))
      as (e & He & Hr & Hl & Hp & Ha & Hpo & Hm & _); [vm_compute; reflexivity|].
    exists e. repeat split; assumption.
  - destruct (C1_write_emits_one_event Scenario.cfg_keep
                (Scenario.at_write Scenario.get_request 10) Scenario.connected
                {| leaf_addr := 0x057100cb; leaf_port := 0xbb01 |})
      as [_ Hdrop]; [vm_compute; reflexivity|].
    apply Hdrop. vm_compute. reflexivity.
Defined.

(** C1 as stated fails: a ten-byte buffer that ends where the mapping ends
    is a readable written buffer, the connection record is cached, and yet
    nothing is emitted, because the probe copies 64 bytes whatever the
    length. *)
Lemma C1_short_buffer_at_end_of_mapping :
  pid_cache Scenario.connected
    !! current_pid (Scenario.at_write Scenario.get_request 10)
  = Some {| leaf_addr := 0x057100cb; leaf_port := 0xbb01 |} /\
  written_buffer (Scenario.at_write Scenario.get_request 10)
  = Some Scenario.get_request /\
  emitted Scenario.connected
    (SSL_write Scenario.cfg_keep
       (Scenario.at_write Scenario.get_request 10) Scenario.connected) = [].
Proof. vm_compute. repeat split; reflexivity. Qed.

(** Why C1 asks for a record that is still cached: under a policy that
    flushes after every event, the first write is emitted and takes the
    record with it, and the second write of the same process is dropped. *)
Example flush_policy_drops_second_write :
  let w := Scenario.at_write Scenario.hundred_bytes 100 in
  let s1 := SSL_write Scenario.cfg_flush w Scenario.connected in
  length (emitted Scenario.connected s1) = 1%nat /\
  pid_cache s1 !! current_pid w = None /\
  emitted s1 (SSL_write Scenario.cfg_flush w s1) = [].
Proof. vm_compute. repeat split; reflexivity. Qed.

(** ** Handler by handler: events and connection records *)

Lemma sys_enter_connect_ipv4 c s a :
  observed_sockaddr c = Some a -> sin_family a = AF_INET ->
  sys_enter_connect c s =
  set_pid_cache
    (insert (current_pid c) {| leaf_addr := sin_addr a; leaf_port := sin_port a |}) s.
Proof.
  unfold observed_sockaddr, sys_enter_connect, bpf_probe_read.
  destruct (read_bytes _ _ _) as [bs|]; [|done].
  intros [= <-] Hf. simpl in *. by rewrite Hf.
Qed.

Lemma sys_enter_connect_other_family c s a :
  observed_sockaddr c = Some a -> sin_family a <> AF_INET ->
  sys_enter_connect c s = s.
Proof.
  unfold observed_sockaddr, sys_enter_connect, bpf_probe_read.
  destruct (read_bytes _ _ _) as [bs|]; [|done].
  intros [= <-] Hf. simpl in *. apply Z.eqb_neq in Hf. by rewrite Hf.
Qed.

Lemma sys_enter_connect_not_ipv4 c s :
  observes_ipv4 c = false ->
  pid_cache (sys_enter_connect c s) = pid_cache s /\
  SSL_read_buffers (sys_enter_connect c s) = SSL_read_buffers s /\
  tls_information_cache (sys_enter_connect c s) = tls_information_cache s /\
  tls_events (sys_enter_connect c s) = tls_events s.
Proof.
  unfold observes_ipv4, observed_sockaddr, sys_enter_connect, bpf_probe_read.
  destruct (read_bytes _ _ _) as [bs|]; simpl; [|done].
  by intros ->.
Qed.

Lemma sys_enter_connect_tls_events c s :
  tls_events (sys_enter_connect c s) = tls_events s.
Proof.
  unfold sys_enter_connect. destruct (bpf_probe_read _ _ _) as [ret bs].
  destruct (nonzero ret); [done|]. by destruct (negb _).
Qed.

Lemma SSL_read_tls_events c s : tls_events (SSL_read c s) = tls_events s.
Proof.
  unfold SSL_read.
  pose proof (get_tls_version_tables c (PT_REGS_PARM1 c) s) as H.
  destruct (get_tls_version c (PT_REGS_PARM1 c) s) as [v s1]. simpl in *.
  by destruct H as (_ & _ & _ & ->).
Qed.

Lemma SSL_read_pid_cache c s : pid_cache (SSL_read c s) = pid_cache s.
Proof.
  unfold SSL_read.
  pose proof (get_tls_version_tables c (PT_REGS_PARM1 c) s) as H.
  destruct (get_tls_version c (PT_REGS_PARM1 c) s) as [v s1]. simpl in *.
  by destruct H as (-> & _).
Qed.

Lemma SSL_read_ret_tls_events cfg c s :
  tls_events (SSL_read_ret cfg c s) = tls_events s ++ submitted_at_return c s.
Proof.
  unfold SSL_read_ret, submitted_at_return, read_leaf_as_buffer, bpf_probe_read.
  destruct (to_s32 (PT_REGS_RC c) =? -1); [by rewrite app_nil_r|].
  destruct (SSL_read_buffers s !! current_pid c) as [leaf|]; [|by rewrite app_nil_r].
  destruct (read_bytes (leaf_tail c) 16 0) as [tail|]; simpl; [|by rewrite app_nil_r].
  apply SSL_read_write_tls_events.
Qed.

Lemma SSL_read_ret_pid_cache cfg c s k :
  pid_cache (SSL_read_ret cfg c s) !! k = None \/
  pid_cache (SSL_read_ret cfg c s) !! k = pid_cache s !! k.
Proof.
  unfold SSL_read_ret, read_leaf_as_buffer.
  destruct (to_s32 (PT_REGS_RC c) =? -1); [by right|].
  destruct (SSL_read_buffers s !! current_pid c) as [leaf|]; [|by right].
  destruct (bpf_probe_read _ _ _) as [ret tail].
  destruct (nonzero ret); [by right|]. simpl.
  apply SSL_read_write_pid_cache.
Qed.

Lemma parse_session_tables cfg c s :
  pid_cache (parse_session cfg c s) = pid_cache s /\
  SSL_read_buffers (parse_session cfg c s) = SSL_read_buffers s /\
  tls_events (parse_session cfg c s) = tls_events s.
Proof.
  unfold parse_session.
  repeat (destruct (bpf_probe_read _ _ _) as [? ?]).
  unfold trace_if_failed. by repeat (destruct (nonzero _)).
Qed.

Lemma SSL_write_pid_cache cfg c s k :
  pid_cache (SSL_write cfg c s) !! k = None \/
  pid_cache (SSL_write cfg c s) !! k = pid_cache s !! k.
Proof.
  unfold SSL_write.
  pose proof (get_tls_version_tables c (PT_REGS_PARM1 c) s) as H.
  destruct (get_tls_version c (PT_REGS_PARM1 c) s) as [v s1]. simpl in H.
  destruct H as (Hp & _).
  destruct (parse_session_tables cfg c s1) as (Hp' & _).
  rewrite <- Hp, <- Hp'. apply SSL_read_write_pid_cache.
Qed.

(** Every submitted event names the process the probe fired in, and that
    process had a connection record. *)
Lemma submitted_pid c v b s e :
  e ∈ submitted c v b s ->
  ev_pid e = current_pid c /\ is_Some (pid_cache s !! current_pid c).
Proof.
  unfold submitted.
  destruct (pid_cache s !! current_pid c) as [leaf|]; [|by intros ?%elem_of_nil].
  destruct (read_bytes _ _ _) as [msg|]; [|by intros ?%elem_of_nil].
  intros ->%list_elem_of_singleton. by eauto.
Qed.

(** One step: the stream is extended, only by events of the firing process,
    and only if that process has a connection record. *)
Lemma fire_tls_events cfg s p :
  exists l, tls_events (fire cfg s p) = tls_events s ++ l /\
    forall e, e ∈ l ->
      ev_pid e = current_pid (probe_context p) /\
      is_Some (pid_cache s !! current_pid (probe_context p)).
Proof.
  destruct p as [c|c|c|c]; simpl.
  - exists []. rewrite sys_enter_connect_tls_events, app_nil_r.
    split; [done|]. by intros e ?%elem_of_nil.
  - exists []. rewrite SSL_read_tls_events, app_nil_r.
    split; [done|]. by intros e ?%elem_of_nil.
  - eexists. split; [apply SSL_read_ret_tls_events|].
    unfold submitted_at_return. intros e.
    destruct (to_s32 (PT_REGS_RC c) =? -1); [by intros ?%elem_of_nil|].
    destruct (SSL_read_buffers s !! current_pid c); [|by intros ?%elem_of_nil].
    destruct (read_bytes (leaf_tail c) 16 0); [|by intros ?%elem_of_nil].
    apply submitted_pid.
  - eexists. split; [apply SSL_write_tls_events|]. apply submitted_pid.
Qed.

(** One step: a record appears for [k] only through an IPv4 connection
    observation of [k]. *)
Lemma fire_pid_cache_None cfg s p k :
  pid_cache s !! k = None -> ipv4_connect_of k p = false ->
  pid_cache (fire cfg s p) !! k = None.
Proof.
  intros Hk Hp. destruct p as [c|c|c|c]; simpl in *.
  - destruct (observes_ipv4 c) eqn:Ev4.
    + rewrite andb_true_r in Hp. apply Z.eqb_neq in Hp.
      unfold observes_ipv4 in Ev4.
      destruct (observed_sockaddr c) as [a|] eqn:Ea; [|done].
      apply Z.eqb_eq in Ev4.
      rewrite (sys_enter_connect_ipv4 _ _ _ Ea Ev4). simpl.
      by rewrite lookup_insert_ne.
    + destruct (sys_enter_connect_not_ipv4 c s Ev4) as (-> & _). done.
  - by rewrite SSL_read_pid_cache.
  - destruct (SSL_read_ret_pid_cache cfg c s k) as [H|H]; congruence.
  - destruct (SSL_write_pid_cache cfg c s k) as [H|H]; congruence.
Qed.

(** ** No record, no event (C2) *)

(** Along a run in which [pid] makes no IPv4 connection, a process without a
    connection record stays without one and nothing is emitted for it. *)
Lemma run_without_record cfg pid ps : forall s,
  pid_cache s !! pid = None ->
  forallb (fun p => negb (ipv4_connect_of pid p)) ps = true ->
  pid_cache (run cfg s ps) !! pid = None /\
  exists l, tls_events (run cfg s ps) = tls_events s ++ l /\
            Forall (fun e => ev_pid e <> pid) l.
Proof.
  unfold run. induction ps as [|p ps IH]; intros s Hs Hps; simpl in *.
  - split; [done|]. exists []. by rewrite app_nil_r.
  - apply andb_true_iff in Hps as [Hp Hps]. apply negb_true_iff in Hp.
    pose proof (fire_pid_cache_None cfg s p pid Hs Hp) as Hs'.
    destruct (IH _ Hs' Hps) as (Hfin & l & Hl & Hall).
    split; [exact Hfin|].
    destruct (fire_tls_events cfg s p) as (l0 & Hl0 & Hl0pid).
    exists (l0 ++ l). split.
    + by rewrite Hl, Hl0, app_assoc.
    + apply Forall_app. split; [|exact Hall].
      apply Forall_forall. intros e He Heq.
      destruct (Hl0pid e He) as [Hpid [leaf Hleaf]]. congruence.
Qed.

(** C2, as the code has it: a connection observation whose family is not
    [AF_INET] leaves the state as it was, so no record is created; and if the
    calling process had no record, none appears and no event is emitted for
    it along any run that contains no IPv4 connection observation of that
    process. *)
Theorem C2_non_ipv4_connect cfg c a s :
  observed_sockaddr c = Some a -> sin_family a <> AF_INET ->
  sys_enter_connect c s = s /\
  (pid_cache s !! current_pid c = None ->
   forall ps,
     forallb (fun p => negb (ipv4_connect_of (current_pid c) p)) ps = true ->
     pid_cache (run cfg (sys_enter_connect c s) ps) !! current_pid c = None /\
     Forall (fun e => ev_pid e <> current_pid c)
       (emitted s (run cfg (sys_enter_connect c s) ps))).
Proof.
  intros Ha Hf.
  pose proof (sys_enter_connect_other_family c s a Ha Hf) as Hsame.
  split; [exact Hsame|]. intros Hnone ps Hps. rewrite Hsame.
  destruct (run_without_record cfg _ ps s Hnone Hps) as (Hfin & l & Hl & Hall).
  split; [exact Hfin|]. by rewrite (emitted_app _ _ _ Hl).
Qed.

Lemma C2_non_ipv4_connect_witness :
  let c6 := Scenario.at_connect Scenario.sockaddr_v6 in
  let ps := [WriteEntry (Scenario.at_write Scenario.hundred_bytes 100);
             ReadEntry (Scenario.at_read_entry Scenario.ssl_st_tls12 0x8000);
             ReadReturn (Scenario.at_read_return Scenario.hundred_bytes 50)] in
  sys_enter_connect c6 initial_state = initial_state /\
  pid_cache (run Scenario.cfg_keep (sys_enter_connect c6 initial_state) ps)
    !! 1234 = None /\
  Forall (fun e => ev_pid e <> 1234)
    (emitted initial_state
       (run Scenario.cfg_keep (sys_enter_connect c6 initial_state) ps)).
Proof.
  intros c6 ps.
  destruct (C2_non_ipv4_connect Scenario.cfg_keep c6
              {| sin_family := 10; sin_port := 0xbb01; sin_addr := 0 |}
              initial_state) as [Hsame Hrun].
  - vm_compute. reflexivity.
  - vm_compute. discriminate.
  - split; [exact Hsame|]. apply (Hrun eq_refl ps). vm_compute. reflexivity.
Defined.

(** C2 as stated fails when the process already has a record: after an IPv4
    connection, a connection to an IPv6 peer creates no record, and the next
    write is still emitted, under the IPv4 peer of the older connection. *)
Lemma C2_event_after_non_ipv4_connect :
  let c6 := Scenario.at_connect Scenario.sockaddr_v6 in
  let s := sys_enter_connect c6 Scenario.connected in
  (sin_family <$> observed_sockaddr c6) = Some 10 /\
  AF_INET = 2 /\
  pid_cache s = pid_cache Scenario.connected /\
  emitted s
    (run Scenario.cfg_keep s
       [WriteEntry (Scenario.at_write Scenario.hundred_bytes 100)])
  = [ {| ev_addr := 0x057100cb; ev_port := 0xbb01; ev_tls_version := 0x0303;
         ev_comm := Scenario.comm_curl; ev_message := replicate 64 x41;
         ev_message_length := 100; ev_pid := current_pid c6;
         ev_is_read := 0 |} ].
Proof. vm_compute. repeat split; reflexivity. Qed.

(** ** The trace pipe is write-only

    No handler reads the trace pipe, so two states that differ only there
    stay so along every run, and produce the same events. *)

Lemma SSL_read_write_erase cfg c v b s :
  erase_trace (SSL_read_write cfg c v b (erase_trace s)) =
  erase_trace (SSL_read_write cfg c v b s).
Proof.
  unfold SSL_read_write. destruct b as [b|]; [|done]. simpl.
  destruct (pid_cache s !! current_pid c) as [leaf|]; [|done].
  split_reads; [done|]. by destruct (DIRECTIONS cfg (buf_is_read b)).
Qed.

Lemma SSL_read_write_erase_eq cfg c v b s s' :
  erase_trace s = erase_trace s' ->
  erase_trace (SSL_read_write cfg c v b s) =
  erase_trace (SSL_read_write cfg c v b s').
Proof.
  intros H. rewrite <- (SSL_read_write_erase cfg c v b s),
    <- (SSL_read_write_erase cfg c v b s'). by rewrite H.
Qed.

Lemma erase_set_SSL_read_buffers f s :
  erase_trace (set_SSL_read_buffers f s) = set_SSL_read_buffers f (erase_trace s).
Proof. done. Qed.

Lemma fire_erase cfg s p :
  erase_trace (fire cfg (erase_trace s) p) = erase_trace (fire cfg s p).
Proof.
  destruct p as [c|c|c|c]; simpl.
  - unfold sys_enter_connect. split_reads; [done|]. by destruct (negb _).
  - unfold SSL_read, get_tls_version. by split_reads.
  - unfold SSL_read_ret, read_leaf_as_buffer.
    change (SSL_read_buffers (erase_trace s)) with (SSL_read_buffers s).
    destruct (to_s32 (PT_REGS_RC c) =? -1); [done|].
    destruct (SSL_read_buffers s !! current_pid c) as [leaf|]; [|done].
    split_reads; [done|].
    rewrite !erase_set_SSL_read_buffers. by rewrite SSL_read_write_erase.
  - unfold SSL_write, get_tls_version, parse_session.
    split_reads; apply SSL_read_write_erase_eq; reflexivity.
Qed.

Lemma run_erase cfg ps : forall s s',
  erase_trace s = erase_trace s' ->
  erase_trace (run cfg s ps) = erase_trace (run cfg s' ps).
Proof.
  unfold run. induction ps as [|p ps IH]; intros s s' H; simpl; [done|].
  apply IH. by rewrite <- (fire_erase cfg s), <- (fire_erase cfg s'), H.
Qed.

(** ** Pending read buffers (C3, C4) *)

Lemma SSL_read_erase c s :
  erase_trace (SSL_read c s) =
  set_SSL_read_buffers (insert (current_pid c) (to_u64 (PT_REGS_PARM2 c)))
    (erase_trace s).
Proof. unfold SSL_read, get_tls_version. by split_reads. Qed.

Lemma SSL_read_SSL_read_buffers c s :
  SSL_read_buffers (SSL_read c s) =
  <[current_pid c := to_u64 (PT_REGS_PARM2 c)]> (SSL_read_buffers s).
Proof.
  change (SSL_read_buffers (SSL_read c s))
    with (SSL_read_buffers (erase_trace (SSL_read c s))).
  by rewrite SSL_read_erase.
Qed.

Lemma SSL_read_ret_failure cfg c s :
  to_s32 (PT_REGS_RC c) = -1 -> SSL_read_ret cfg c s = s.
Proof. unfold SSL_read_ret. by intros ->. Qed.

(** The message of a read event is copied from the address held in the
    pending buffer of the returning process. *)
Lemma SSL_read_ret_event_message cfg c s e :
  e ∈ emitted s (SSL_read_ret cfg c s) ->
  exists leaf,
    SSL_read_buffers s !! current_pid c = Some leaf /\
    read_bytes (user_mem c) MESSAGE_MAX_LEN leaf = Some (ev_message e).
Proof.
  rewrite (emitted_app _ _ _ (SSL_read_ret_tls_events cfg c s)).
  unfold submitted_at_return, submitted.
  destruct (to_s32 (PT_REGS_RC c) =? -1); [by intros ?%elem_of_nil|].
  destruct (SSL_read_buffers s !! current_pid c) as [leaf|]; [|by intros ?%elem_of_nil].
  destruct (read_bytes (leaf_tail c) 16 0); [|by intros ?%elem_of_nil].
  destruct (pid_cache s !! current_pid c); [|by intros ?%elem_of_nil].
  cbn [finalized_buffer buf_ptr].
  destruct (read_bytes (user_mem c) _ _) as [msg|] eqn:E; [|by intros ?%elem_of_nil].
  intros ->%list_elem_of_singleton. by exists leaf.
Qed.

(** C3: when a read that was seen entering returns -1, the return probe
    emits nothing and leaves the pending buffer in the table; the next entry
    of the same process replaces it, the event of the return that follows
    is copied from the new address, and from that entry on the tables and
    the event stream are what they would have been had the failed read never
    been observed, so the stale address reaches no event. *)
Theorem C3_failed_read_is_overwritten cfg cA cF cB s0 :
  current_pid cF = current_pid cA ->
  current_pid cB = current_pid cA ->
  to_s32 (PT_REGS_RC cF) = -1 ->
  let s1 := SSL_read cA s0 in
  let s2 := SSL_read_ret cfg cF s1 in
  emitted s1 s2 = [] /\
  SSL_read_buffers s2 !! current_pid cA = Some (to_u64 (PT_REGS_PARM2 cA)) /\
  SSL_read_buffers (SSL_read cB s2) !! current_pid cA
    = Some (to_u64 (PT_REGS_PARM2 cB)) /\
  (forall cR e,
     current_pid cR = current_pid cA ->
     e ∈ emitted (SSL_read cB s2) (SSL_read_ret cfg cR (SSL_read cB s2)) ->
     read_bytes (user_mem cR) MESSAGE_MAX_LEN (to_u64 (PT_REGS_PARM2 cB))
       = Some (ev_message e)) /\
  forall ps,
    let after := run cfg (SSL_read cB s2) ps in
    let never_seen := run cfg (SSL_read cB s0) ps in
    tls_events after = tls_events never_seen /\
    SSL_read_buffers after = SSL_read_buffers never_seen /\
    pid_cache after = pid_cache never_seen /\
    tls_information_cache after = tls_information_cache never_seen.
Proof.
  intros HF HB Hrc s1 s2.
  assert (s2 = s1) as -> by (by apply SSL_read_ret_failure).
  split; [by apply emitted_same|].
  split; [unfold s1; rewrite SSL_read_SSL_read_buffers; apply lookup_insert_eq|].
  assert (SSL_read_buffers (SSL_read cB s1) !! current_pid cA
          = Some (to_u64 (PT_REGS_PARM2 cB))) as Hnew.
  { rewrite SSL_read_SSL_read_buffers, HB. apply lookup_insert_eq. }
  split; [exact Hnew|]. split.
  { intros cR e HR He.
    apply SSL_read_ret_event_message in He as (leaf & Hleaf & Hmsg).
    rewrite HR, Hnew in Hleaf. by injection Hleaf as <-. }
  intros ps after never_seen.
  assert (erase_trace after = erase_trace never_seen) as H.
  { apply run_erase. rewrite !SSL_read_erase. unfold s1.
    rewrite SSL_read_erase. unfold set_SSL_read_buffers. simpl.
    by rewrite HB, insert_insert_eq. }
  by injection H.
Qed.

Lemma C3_failed_read_is_overwritten_witness :
  let cA := Scenario.at_read_entry Scenario.ssl_st_tls12 0x8000 in
  let cF := Scenario.at_read_return Scenario.hundred_bytes (2 ^ 32 - 1) in
  let cB := Scenario.at_read_entry Scenario.ssl_st_tls12 0x9000 in
  let s1 := SSL_read cA Scenario.connected in
  let s2 := SSL_read_ret Scenario.cfg_keep cF s1 in
  emitted s1 s2 = [] /\
  SSL_read_buffers s2 !! current_pid cA = Some (to_u64 (PT_REGS_PARM2 cA)) /\
  SSL_read_buffers (SSL_read cB s2) !! current_pid cA
    = Some (to_u64 (PT_REGS_PARM2 cB)) /\
  (forall cR e,
     current_pid cR = current_pid cA ->
     e ∈ emitted (SSL_read cB s2) (SSL_read_ret Scenario.cfg_keep cR (SSL_read cB s2)) ->
     read_bytes (user_mem cR) MESSAGE_MAX_LEN (to_u64 (PT_REGS_PARM2 cB))
       = Some (ev_message e)) /\
  forall ps,
    let after := run Scenario.cfg_keep (SSL_read cB s2) ps in
    let never_seen := run Scenario.cfg_keep (SSL_read cB Scenario.connected) ps in
    tls_events after = tls_events never_seen /\
    SSL_read_buffers after = SSL_read_buffers never_seen /\
    pid_cache after = pid_cache never_seen /\
    tls_information_cache after = tls_information_cache never_seen.
Proof.
  intros cA cF cB.
  apply (C3_failed_read_is_overwritten Scenario.cfg_keep cA cF cB Scenario.connected);
    vm_compute; reflexivity.
Defined.

Lemma SSL_read_ret_SSL_read_buffers cfg c s tail :
  read_bytes (leaf_tail c) 16 0 = Some tail ->
  SSL_read_buffers (SSL_read_ret cfg c s) =
  if to_s32 (PT_REGS_RC c) =? -1 then SSL_read_buffers s
  else delete (current_pid c) (SSL_read_buffers s).
Proof.
  intros Htail. unfold SSL_read_ret, read_leaf_as_buffer.
  rewrite (bpf_probe_read_ok _ _ _ _ Htail).
  destruct (to_s32 (PT_REGS_RC c) =? -1); [done|].
  destruct (SSL_read_buffers s !! current_pid c) as [leaf|] eqn:E.
  - simpl. by rewrite SSL_read_write_SSL_read_buffers.
  - symmetry. by apply delete_id.
Qed.




(** ** The capture window (C5) *)

(** C5: an event submitted for a descriptor whose length exceeds 64 carries
    exactly 64 message bytes, the descriptor's length unchanged, and those
    64 bytes are the first 64 of the payload at the descriptor's address. *)
Theorem C5_truncation cfg c v b s e :
  e ∈ emitted s (SSL_read_write cfg c v (Some b) s) ->
  Z.of_nat MESSAGE_MAX_LEN < buf_length b ->
  length (ev_message e) = MESSAGE_MAX_LEN /\
  ev_message_length e = buf_length b /\
  forall payload,
    read_bytes (user_mem c) (Z.to_nat (buf_length b)) (buf_ptr b) = Some payload ->
    (MESSAGE_MAX_LEN < length payload)%nat /\
    ev_message e = take MESSAGE_MAX_LEN payload.
Proof.
  intros He Hlen.
  rewrite (emitted_app _ _ _ (SSL_read_write_tls_events cfg c v b s)) in He.
  unfold submitted in He.
  destruct (pid_cache s !! current_pid c) as [leaf|]; [|by apply elem_of_nil in He].
  destruct (read_bytes (user_mem c) MESSAGE_MAX_LEN (buf_ptr b)) as [msg|] eqn:Emsg;
    [|by apply elem_of_nil in He].
  apply list_elem_of_singleton in He as ->. simpl.
  split; [by apply read_bytes_length in Emsg|]. split; [done|].
  intros payload Hpay.
  pose proof (read_bytes_length _ _ _ _ Hpay) as Hl.
  split; [lia|].
  pose proof (read_bytes_prefix _ _ MESSAGE_MAX_LEN _ _ Hpay ltac:(lia)) as H.
  congruence.
Qed.

Lemma C5_truncation_witness :
  let c := Scenario.at_write Scenario.hundred_bytes 100 in
  let b := {| buf_ptr := 0x7000; buf_length := 100; buf_tls_version := 0;
              buf_is_read := 0 |} in
  let e := {| ev_addr := 0x057100cb; ev_port := 0xbb01; ev_tls_version := 0x0303;
              ev_comm := Scenario.comm_curl; ev_message := replicate 64 x41;
              ev_message_length := 100; ev_pid := 1234; ev_is_read := 0 |} in
  length (ev_message e) = MESSAGE_MAX_LEN /\
  ev_message_length e = buf_length b /\
  forall payload,
    read_bytes (user_mem c) (Z.to_nat (buf_length b)) (buf_ptr b) = Some payload ->
    (MESSAGE_MAX_LEN < length payload)%nat /\
    ev_message e = take MESSAGE_MAX_LEN payload.
Proof.
  intros c b e.
  apply (C5_truncation Scenario.cfg_keep c 0x0303 b Scenario.connected e).
  - vm_compute. left.
  - vm_compute. reflexivity.
Defined.

(** ** The version of a read event (C6) *)

(** What [SSL_read] leaves in the tables does not depend on the version it
    extracted: two entries that differ only in the handle's contents leave
    the same tables. *)
Lemma SSL_read_forgets_version c c' s :
  current_pid c = current_pid c' -> PT_REGS_PARM2 c = PT_REGS_PARM2 c' ->
  erase_trace (SSL_read c s) = erase_trace (SSL_read c' s).
Proof. intros Hp Hb. by rewrite !SSL_read_erase, Hp, Hb. Qed.

(** Every event of the return probe carries the 16 bits found behind the
    leaf. *)
Lemma SSL_read_ret_event_version cfg c s e tail :
  read_bytes (leaf_tail c) 16 0 = Some tail ->
  e ∈ emitted s (SSL_read_ret cfg c s) ->
  ev_tls_version e = version_after_leaf tail.
Proof.
  intros Htail.
  rewrite (emitted_app _ _ _ (SSL_read_ret_tls_events cfg c s)).
  unfold submitted_at_return, submitted. rewrite Htail.
  destruct (to_s32 (PT_REGS_RC c) =? -1); [by intros ?%elem_of_nil|].
  destruct (SSL_read_buffers s !! current_pid c); [|by intros ?%elem_of_nil].
  destruct (pid_cache s !! current_pid c); [|by intros ?%elem_of_nil].
  destruct (read_bytes (user_mem c) _ _); [|by intros ?%elem_of_nil].
  by intros ->%list_elem_of_singleton.
Qed.

(** C6 at a concrete read: the handle says TLS 1.2 (0x0303) at entry, the
    read returns 50, and the event carries 0x8880, the bits of the kernel
    pointer that lies twelve bytes after the start of the leaf. *)
Theorem C6_read_event_version_is_not_the_entry_version :
  let cE := Scenario.at_read_entry Scenario.ssl_st_tls12 0x8000 in
  let cR := Scenario.at_read_return Scenario.hundred_bytes 50 in
  let s1 := SSL_read cE Scenario.connected in
  (get_tls_version cE (PT_REGS_PARM1 cE) Scenario.connected).1 = 0x0303 /\
  SSL_read_buffers s1 !! current_pid cR = Some 0x8000 /\
  emitted s1 (SSL_read_ret Scenario.cfg_keep cR s1)
  = [ {| ev_addr := 0x057100cb; ev_port := 0xbb01; ev_tls_version := 0x8880;
         ev_comm := Scenario.comm_curl; ev_message := replicate 64 x41;
         ev_message_length := 50; ev_pid := 1234; ev_is_read := 1 |} ].
Proof. vm_compute. repeat split; reflexivity. Qed.

(** ** Return values of the read routine (C10) *)

(** C10: a return value other than -1 is finalized like a successful read.
    With a pending buffer, a connection record and readable memory, one read
    event is emitted whose [message_length] is the return value as a [u32]:
    0 for 0, and 2^32 + r for a negative r other than -1. *)
Theorem C10_return_value_not_minus_one cfg c s leaf conn tail window :
  to_s32 (PT_REGS_RC c) <> -1 ->
  SSL_read_buffers s !! current_pid c = Some leaf ->
  pid_cache s !! current_pid c = Some conn ->
  read_bytes (leaf_tail c) 16 0 = Some tail ->
  read_bytes (user_mem c) MESSAGE_MAX_LEN leaf = Some window ->
  exists e,
    emitted s (SSL_read_ret cfg c s) = [e] /\
    ev_is_read e = 1 /\
    ev_message_length e = to_u32 (to_s32 (PT_REGS_RC c)) /\
    (to_s32 (PT_REGS_RC c) = 0 -> ev_message_length e = 0) /\
    (to_s32 (PT_REGS_RC c) < -1 ->
       ev_message_length e = 2 ^ 32 + to_s32 (PT_REGS_RC c) /\
       2 ^ 31 <= ev_message_length e).
Proof.
  intros Hrc%Z.eqb_neq Hleaf Hconn Htail Hwin.
  eexists. split.
  { apply emitted_app. rewrite SSL_read_ret_tls_events.
    unfold submitted_at_return, submitted.
    rewrite Hrc, Hleaf, Htail, Hconn. cbn [finalized_buffer buf_ptr].
    rewrite Hwin. reflexivity. }
  simpl. split; [done|]. split; [done|]. split.
  - by intros ->.
  - intros Hneg. unfold to_u32.
    assert (- 2 ^ 31 <= to_s32 (PT_REGS_RC c)) as Hlo.
    { unfold to_s32. pose proof (Z.mod_pos_bound (PT_REGS_RC c + 2 ^ 31) (2 ^ 32)). lia. }
    rewrite <- (Z.mod_add _ 1 (2 ^ 32)) by lia.
    rewrite Z.mod_small by lia. lia.
Qed.

Lemma C10_return_value_not_minus_one_witness :
  let cE := Scenario.at_read_entry Scenario.ssl_st_tls12 0x8000 in
  let s1 := SSL_read cE Scenario.connected in
  (exists e,
     emitted s1 (SSL_read_ret Scenario.cfg_keep
                   (Scenario.at_read_return Scenario.hundred_bytes 0) s1) = [e] /\
     ev_is_read e = 1 /\ ev_message_length e = 0) /\
  (exists e,
     emitted s1 (SSL_read_ret Scenario.cfg_keep
                   (Scenario.at_read_return Scenario.hundred_bytes (2 ^ 32 - 2)) s1) = [e] /\
     ev_is_read e = 1 /\ ev_message_length e = 2 ^ 32 - 2).
Proof.
  intros cE s1. split.
  - destruct (C10_return_value_not_minus_one Scenario.cfg_keep
                (Scenario.at_read_return Scenario.hundred_bytes 0) s1 0x8000
                {| leaf_addr := 0x057100cb; leaf_port := 0xbb01 |}
                Scenario.next_element_header (replicate 64 x41))
      as (e & He & Hr & _ & H0 & _);
      [vm_compute; discriminate | vm_compute; reflexivity ..|].
    exists e. split; [exact He|]. split; [exact Hr|]. apply H0. reflexivity.
  - destruct (C10_return_value_not_minus_one Scenario.cfg_keep
                (Scenario.at_read_return Scenario.hundred_bytes (2 ^ 32 - 2)) s1 0x8000
                {| leaf_addr := 0x057100cb; leaf_port := 0xbb01 |}
                Scenario.next_element_header (replicate 64 x41))
      as (e & He & Hr & _ & _ & Hn);
      [vm_compute; discriminate | vm_compute; reflexivity ..|].
    exists e. split; [exact He|]. split; [exact Hr|]. apply Hn. reflexivity.
Defined.

(** ** The version sentinel (C9) *)

Lemma get_tls_version_failed c p s :
  read_bytes (user_mem c) 4 p = None ->
  get_tls_version c p s =
  (to_u16 (-1), bpf_trace_printk "get_tls_version() - bpf_probe_read() failed" s).
Proof.
  intros H. unfold get_tls_version. by rewrite (bpf_probe_read_failed _ _ _ H).
Qed.

(** X17: when the copy of the handle fails, [get_tls_version] returns 65535,
    which is -1 cut to 16 bits, and the callers carry on: [SSL_write] still
    emits its event, with 65535 as [tls_version], and [SSL_read] still
    stores the pending buffer. *)
Theorem version_sentinel_on_write cfg c s :
  read_bytes (user_mem c) 4 (PT_REGS_PARM1 c) = None ->
  (get_tls_version c (PT_REGS_PARM1 c) s).1 = 65535 /\
  to_u16 (-1) = 65535 /\
  (forall conn window,
     pid_cache s !! current_pid c = Some conn ->
     read_bytes (user_mem c) MESSAGE_MAX_LEN (to_u64 (PT_REGS_PARM2 c)) = Some window ->
     exists e, emitted s (SSL_write cfg c s) = [e] /\ ev_tls_version e = 65535 /\
               ev_is_read e = 0) /\
  SSL_read_buffers (SSL_read c s) !! current_pid c = Some (to_u64 (PT_REGS_PARM2 c)).
Proof.
  intros Hfail. rewrite (get_tls_version_failed _ _ _ Hfail).
  split; [done|]. split; [done|]. split.
  - intros conn window Hconn Hwin. eexists. split.
    + apply emitted_app. rewrite SSL_write_tls_events.
      rewrite (get_tls_version_failed _ _ _ Hfail). unfold submitted.
      cbn [buf_ptr fst]. rewrite Hconn, Hwin. reflexivity.
    + done.
  - rewrite SSL_read_SSL_read_buffers. apply lookup_insert_eq.
Qed.

Lemma version_sentinel_on_write_witness :
  let c := {| PT_REGS_PARM1 := 0; PT_REGS_PARM2 := 0x7000; PT_REGS_PARM3 := 100;
              PT_REGS_RC := 0; uservaddr := 0;
              current_pid_tgid := Scenario.pid_tgid_1234;
              current_comm := Scenario.comm_curl;
              user_mem := Scenario.bytes_at 0x7000 Scenario.hundred_bytes;
              leaf_tail := Scenario.unmapped |} in
  (get_tls_version c (PT_REGS_PARM1 c) Scenario.connected).1 = 65535 /\
  exists e, emitted Scenario.connected
              (SSL_write Scenario.cfg_keep c Scenario.connected) = [e] /\
            ev_tls_version e = 65535 /\ ev_is_read e = 0.
Proof.
  intros c.
  destruct (version_sentinel_on_write Scenario.cfg_keep c Scenario.connected)
    as (Hv & _ & Hw & _).
  - vm_compute. reflexivity.
  - split; [exact Hv|].
    apply (Hw {| leaf_addr := 0x057100cb; leaf_port := 0xbb01 |} (replicate 64 x41));
      vm_compute; reflexivity.
Defined.

(** C9 on the read path, at a concrete read: the handle cannot be copied at
    entry, so [get_tls_version] returns the sentinel 65535 and [SSL_read]
    goes on to store the pending buffer; the read returns 50 and the event
    that is emitted carries 0x8880, the bits found behind the leaf, where the
    sentinel was to be. *)
Theorem C9_read_event_does_not_carry_the_sentinel :
  let cE := Scenario.at_read_entry Scenario.unmapped 0x8000 in
  let cR := Scenario.at_read_return Scenario.hundred_bytes 50 in
  let s1 := SSL_read cE Scenario.connected in
  read_bytes (user_mem cE) 4 (PT_REGS_PARM1 cE) = None /\
  (get_tls_version cE (PT_REGS_PARM1 cE) Scenario.connected).1 = 65535 /\
  SSL_read_buffers s1 !! current_pid cR = Some 0x8000 /\
  emitted s1 (SSL_read_ret Scenario.cfg_keep cR s1)
  = [ {| ev_addr := 0x057100cb; ev_port := 0xbb01; ev_tls_version := 0x8880;
         ev_comm := Scenario.comm_curl; ev_message := replicate 64 x41;
         ev_message_length := 50; ev_pid := 1234; ev_is_read := 1 |} ].
Proof. vm_compute. repeat split; reflexivity. Qed.

(** ** Connection records (C7) *)

Lemma filter_none {A} (P : A -> Prop) `{!forall x, Decision (P x)} (l : list A) :
  Forall (fun x => ~ P x) l -> filter P l = [].
Proof.
  induction 1 as [|x l Hx _ IH]; [done|].
  by rewrite filter_cons_False.
Qed.

(** A key bound in a table has exactly one entry in its listing. *)
Lemma one_entry_per_key {V} (m : gmap Z V) (k : Z) (v : V) :
  m !! k = Some v ->
  filter (fun kv => kv.1 = k) (map_to_list m) = [(k, v)].
Proof.
  intros Hk.
  pose proof (NoDup_fst_map_to_list m) as Hnd.
  assert (forall l : list (Z * V),
            NoDup l.*1 -> (k, v) ∈ l ->
            filter (fun kv => kv.1 = k) l = [(k, v)]) as Hgen.
  { clear. induction l as [|[k' v'] l IH]; intros Hnd Hin.
    - by apply elem_of_nil in Hin.
    - simpl in Hnd. apply NoDup_cons in Hnd as [Hk' Hnd].
      apply elem_of_cons in Hin as [[= <- <-]|Hin].
      + rewrite filter_cons_True by done. f_equal.
        apply filter_none. apply Forall_forall. intros [k2 v2] H2 Heq.
        simpl in Heq. subst k2. apply Hk'. apply list_elem_of_fmap.
        by exists (k, v2).
      + rewrite filter_cons_False; [by apply IH|].
        simpl. intros ->. apply Hk'. apply list_elem_of_fmap. by exists (k, v). }
  apply Hgen; [exact Hnd|]. by apply elem_of_map_to_list.
Qed.

Lemma run_app cfg s ps qs : run cfg s (ps ++ qs) = run cfg (run cfg s ps) qs.
Proof. unfold run. apply foldl_app. Qed.

Lemma observes_ipv4_inv c :
  observes_ipv4 c = true ->
  exists a, observed_sockaddr c = Some a /\ sin_family a = AF_INET.
Proof.
  unfold observes_ipv4. destruct (observed_sockaddr c) as [a|]; [|done].
  intros H%Z.eqb_eq. by exists a.
Qed.

(** IPv4 connections of one process touch its record and nothing else. *)
Lemma run_connects_of_one_process cfg pid cs : forall s,
  Forall (fun c => current_pid c = pid /\ observes_ipv4 c = true) cs ->
  forall record,
    <[pid := record]> (pid_cache (run cfg s (Connect <$> cs)))
    = <[pid := record]> (pid_cache s).
Proof.
  unfold run. induction cs as [|c cs IH]; intros s Hcs record; simpl; [done|].
  apply Forall_cons in Hcs as [[Hpid Hv4] Hcs].
  destruct (observes_ipv4_inv c Hv4) as (a & Ha & Hf).
  rewrite (IH _ Hcs), (sys_enter_connect_ipv4 _ _ _ Ha Hf). simpl.
  by rewrite Hpid, insert_insert_eq.
Qed.

(** C7: after any sequence of IPv4 connection observations of one process,
    its record is that of the last observation: the table is the initial one
    with that single binding written over, the listing of the table has
    exactly one entry for the process, and observing the same connection
    once more changes nothing. *)
Theorem C7_last_connect_wins cfg cs c a s :
  Forall (fun c' => current_pid c' = current_pid c /\ observes_ipv4 c' = true) cs ->
  observed_sockaddr c = Some a -> sin_family a = AF_INET ->
  let s' := run cfg s (Connect <$> (cs ++ [c])) in
  let record := {| leaf_addr := sin_addr a; leaf_port := sin_port a |} in
  pid_cache s' = <[current_pid c := record]> (pid_cache s) /\
  pid_cache s' !! current_pid c = Some record /\
  filter (fun kv => kv.1 = current_pid c) (map_to_list (pid_cache s'))
    = [(current_pid c, record)] /\
  pid_cache (sys_enter_connect c s') = pid_cache s'.
Proof.
  intros Hcs Ha Hf s' record.
  assert (pid_cache s' = <[current_pid c := record]> (pid_cache s)) as Hs'.
  { unfold s'. rewrite fmap_app, run_app. simpl.
    rewrite (sys_enter_connect_ipv4 _ _ _ Ha Hf). simpl.
    by apply run_connects_of_one_process. }
  assert (pid_cache s' !! current_pid c = Some record) as Hlook.
  { rewrite Hs'. apply lookup_insert_eq. }
  split; [exact Hs'|]. split; [exact Hlook|]. split.
  - by apply one_entry_per_key.
  - rewrite (sys_enter_connect_ipv4 _ _ _ Ha Hf). simpl. by apply insert_id.
Qed.

Lemma C7_last_connect_wins_witness :
  let s' := run Scenario.cfg_keep initial_state
              [Connect (Scenario.at_connect Scenario.sockaddr_v4_earlier);
               Connect (Scenario.at_connect Scenario.sockaddr_v4)] in
  let record := {| leaf_addr := 0x057100cb; leaf_port := 0xbb01 |} in
  pid_cache s' = <[1234 := record]> ∅ /\
  pid_cache s' !! 1234 = Some record /\
  filter (fun kv => kv.1 = 1234) (map_to_list (pid_cache s')) = [(1234, record)] /\
  pid_cache (sys_enter_connect (Scenario.at_connect Scenario.sockaddr_v4) s')
    = pid_cache s'.
Proof.
  apply (C7_last_connect_wins Scenario.cfg_keep
           [Scenario.at_connect Scenario.sockaddr_v4_earlier]
           (Scenario.at_connect Scenario.sockaddr_v4)
           {| sin_family := 2; sin_port := 0xbb01; sin_addr := 0x057100cb |}
           initial_state).
  - constructor; [split; vm_compute; reflexivity | constructor].
  - vm_compute. reflexivity.
  - reflexivity.
Defined.

(** ** Session secrets (C8) *)

Lemma parse_session_tls_information_cache cfg c :
  exists info,
    length (ciphersuite info) = CIPHERSUITE_MAX_LEN /\
    length (master_secret info) = MASTER_SECRET_MAX_LEN /\
    forall s, tls_information_cache (parse_session cfg c s)
              = <[current_pid c := info]> (tls_information_cache s).
Proof.
  unfold parse_session.
  destruct (bpf_probe_read (user_mem c) 8 _) as [r1 b1].
  pose proof (bpf_probe_read_length (user_mem c) MASTER_SECRET_MAX_LEN
                (to_u64 (le_decode b1 + MASTER_SECRET_OFFSET cfg))) as Hms.
  destruct (bpf_probe_read (user_mem c) MASTER_SECRET_MAX_LEN _) as [r2 ms].
  destruct (bpf_probe_read (user_mem c) 8 _) as [r3 b3].
  destruct (bpf_probe_read (user_mem c) 8 _) as [r4 b4].
  pose proof (bpf_probe_read_length (user_mem c) CIPHERSUITE_MAX_LEN
                (le_decode b4)) as Hcs.
  destruct (bpf_probe_read (user_mem c) CIPHERSUITE_MAX_LEN _) as [r5 cs].
  exists {| ciphersuite := cs; master_secret := ms |}.
  split; [exact Hcs|]. split; [exact Hms|].
  intros s. unfold trace_if_failed. by repeat (destruct (nonzero _)).
Qed.

Lemma SSL_write_tls_information_cache cfg c s :
  tls_information_cache (SSL_write cfg c s)
  = tls_information_cache (parse_session cfg c s).
Proof.
  unfold SSL_write, get_tls_version.
  destruct (bpf_probe_read (user_mem c) 4 _) as [r bs].
  destruct (nonzero r); rewrite SSL_read_write_tls_information_cache;
    destruct (parse_session_tls_information_cache cfg c) as (info & _ & _ & H);
    by rewrite !H.
Qed.

Lemma fire_tls_information_cache cfg s p :
  dom (tls_information_cache s) ⊆ dom (tls_information_cache (fire cfg s p)).
Proof.
  destruct p as [c|c|c|c]; simpl.
  - unfold sys_enter_connect. split_reads; [done|]. by destruct (negb _).
  - unfold SSL_read, get_tls_version. by split_reads.
  - unfold SSL_read_ret, read_leaf_as_buffer.
    destruct (to_s32 (PT_REGS_RC c) =? -1); [done|].
    destruct (SSL_read_buffers s !! current_pid c); [|done].
    split_reads; [done|]. simpl.
    by rewrite SSL_read_write_tls_information_cache.
  - rewrite SSL_write_tls_information_cache.
    destruct (parse_session_tls_information_cache cfg c) as (info & _ & _ & H).
    rewrite H, dom_insert_L. set_solver.
Qed.

Lemma copied_length m n a : length (copied m n a) = n.
Proof.
  unfold copied. destruct (read_bytes m n a) as [bs|] eqn:E; simpl.
  - by apply read_bytes_length in E.
  - by rewrite length_replicate.
Qed.

Lemma parse_session_stores cfg c s :
  tls_information_cache (parse_session cfg c s)
  = <[current_pid c := session_secrets cfg c]> (tls_information_cache s).
Proof.
  unfold parse_session, session_secrets, copied, bpf_probe_read.
  destruct (read_bytes (user_mem c) 8
              (to_u64 (PT_REGS_PARM1 c + SSL_SESSION_OFFSET cfg))) as [b1|];
    cbn [default from_option id].
  all: destruct (read_bytes (user_mem c) MASTER_SECRET_MAX_LEN _) as [ms|].
  all: destruct (read_bytes (user_mem c) 8 _) as [b3|];
    cbn [default from_option id].
  all: destruct (read_bytes (user_mem c) 8 _) as [b4|];
    cbn [default from_option id].
  all: destruct (read_bytes (user_mem c) CIPHERSUITE_MAX_LEN _) as [cs|].
  all: reflexivity.
Qed.

(** C8: [SSL_write] always binds the current process in
    [tls_information_cache] to the record it has just extracted, over
    whatever was there: the 32 bytes of name and the 48 bytes of master
    secret that the five copies of [parse_session] bring back from the
    session behind the handle, which are the bytes in the caller's memory
    when the pointer chain can be followed. The other three handlers leave
    that table alone, and along any run no key ever leaves it. *)
Theorem C8_session_secrets cfg c :
  (forall s, tls_information_cache (SSL_write cfg c s)
             = <[current_pid c := session_secrets cfg c]> (tls_information_cache s)) /\
  length (ciphersuite (session_secrets cfg c)) = CIPHERSUITE_MAX_LEN /\
  length (master_secret (session_secrets cfg c)) = MASTER_SECRET_MAX_LEN /\
  (forall b1 b3 b4 cs ms,
     read_bytes (user_mem c) 8 (to_u64 (PT_REGS_PARM1 c + SSL_SESSION_OFFSET cfg))
       = Some b1 ->
     read_bytes (user_mem c) MASTER_SECRET_MAX_LEN
       (to_u64 (le_decode b1 + MASTER_SECRET_OFFSET cfg)) = Some ms ->
     read_bytes (user_mem c) 8 (to_u64 (le_decode b1 + SSL_CIPHER_OFFSET cfg))
       = Some b3 ->
     read_bytes (user_mem c) 8 (to_u64 (le_decode b3 + 8)) = Some b4 ->
     read_bytes (user_mem c) CIPHERSUITE_MAX_LEN (le_decode b4) = Some cs ->
     forall s, tls_information_cache (SSL_write cfg c s) !! current_pid c
               = Some {| ciphersuite := cs; master_secret := ms |}) /\
  (forall s,
     tls_information_cache (SSL_read c s) = tls_information_cache s /\
     tls_information_cache (SSL_read_ret cfg c s) = tls_information_cache s /\
     tls_information_cache (sys_enter_connect c s) = tls_information_cache s) /\
  (forall s ps,
     dom (tls_information_cache s) ⊆ dom (tls_information_cache (run cfg s ps))).
Proof.
  assert (forall s, tls_information_cache (SSL_write cfg c s)
                    = <[current_pid c := session_secrets cfg c]>
                        (tls_information_cache s)) as Hwrite.
  { intros s. rewrite SSL_write_tls_information_cache. apply parse_session_stores. }
  split; [exact Hwrite|]. split; [|split; [|split; [|split]]].
  - unfold session_secrets. cbv zeta. cbn [ciphersuite]. apply copied_length.
  - unfold session_secrets. cbv zeta. cbn [master_secret]. apply copied_length.
  - intros b1 b3 b4 cs ms H1 H2 H3 H4 H5 s.
    rewrite Hwrite, lookup_insert_eq. f_equal.
    unfold session_secrets, copied.
    rewrite H1. cbn [default from_option id].
    rewrite H3. cbn [default from_option id].
    rewrite H4. cbn [default from_option id].
    by rewrite H2, H5.
  - intros s. split; [|split].
    + unfold SSL_read, get_tls_version. by split_reads.
    + unfold SSL_read_ret, read_leaf_as_buffer.
      destruct (to_s32 (PT_REGS_RC c) =? -1); [done|].
      destruct (SSL_read_buffers s !! current_pid c); [|done].
      split_reads; [done|]. simpl.
      by rewrite SSL_read_write_tls_information_cache.
    + unfold sys_enter_connect. split_reads; [done|]. by destruct (negb _).
  - intros s ps. revert s. unfold run.
    induction ps as [|p ps IH]; intros s; simpl; [done|].
    etrans; [apply (fire_tls_information_cache cfg s p)|apply IH].
Qed.

Lemma C8_session_secrets_witness :
  tls_information_cache
    (SSL_write Scenario.cfg_keep SessionScenario.at_write Scenario.connected)
    !! 1234
  = Some {| ciphersuite := SessionScenario.cipher_name;
            master_secret := SessionScenario.secret |}.
Proof.
  destruct (C8_session_secrets Scenario.cfg_keep SessionScenario.at_write)
    as (_ & _ & _ & Hchain & _).
  apply (Hchain (SessionScenario.pointer [x00; x00; x01])
           (SessionScenario.pointer [x00; x00; x02])
           (SessionScenario.pointer [x00; x00; x03])
           SessionScenario.cipher_name SessionScenario.secret);
    vm_compute; reflexivity.
Defined.

(** * Further properties of the handlers *)

(** ** Widths *)

Lemma to_u16_range z : 0 <= to_u16 z < 2 ^ 16.
Proof. unfold to_u16. apply Z.mod_pos_bound. lia. Qed.

Lemma to_u32_range z : 0 <= to_u32 z < 2 ^ 32.
Proof. unfold to_u32. apply Z.mod_pos_bound. lia. Qed.

Lemma to_u16_to_s32 z : to_u16 (to_s32 z) = z mod 2 ^ 16.
Proof.
  unfold to_u16, to_s32.
  rewrite (Z.mod_eq (z + 2 ^ 31) (2 ^ 32)) by lia.
  replace (z + 2 ^ 31 - 2 ^ 32 * ((z + 2 ^ 31) / 2 ^ 32) - 2 ^ 31)
    with (z + (- (2 ^ 16 * ((z + 2 ^ 31) / 2 ^ 32))) * 2 ^ 16) by lia.
  apply Z.mod_add. lia.
Qed.

Lemma current_pid_range c : 0 <= current_pid c < 2 ^ 32.
Proof.
  unfold current_pid. change 0xFFFFFFFF with (Z.ones 32).
  rewrite Z.land_ones by lia. apply Z.mod_pos_bound. lia.
Qed.

Lemma le_decode_range bs : 0 <= le_decode bs < 256 ^ Z.of_nat (length bs).
Proof.
  induction bs as [|b bs IH]; simpl le_decode; [simpl; lia|].
  rewrite length_cons, Nat2Z.inj_succ, Z.pow_succ_r by lia.
  pose proof (Byte.to_N_bounded b) as Hb.
  assert (0 <= Z.of_N (Byte.to_N b) <= 255) by lia. lia.
Qed.

Lemma le_decode_take_range n bs :
  0 <= le_decode (take n bs) < 256 ^ Z.of_nat n.
Proof.
  pose proof (le_decode_range (take n bs)) as H.
  assert (length (take n bs) <= n)%nat as Hl by (rewrite length_take; lia).
  split; [lia|]. eapply Z.lt_le_trans; [apply H|].
  apply Z.pow_le_mono_r; lia.
Qed.

(** ** The version helper on a readable handle *)

(** X1: on a successful copy [get_tls_version] returns the low 16 bits of the
    handle's first 32-bit field and writes no trace line. *)
Theorem get_tls_version_readable c p s bytes :
  read_bytes (user_mem c) 4 p = Some bytes ->
  get_tls_version c p s = (le_decode bytes mod 2 ^ 16, s) /\
  (le_decode bytes < 2 ^ 16 ->
     (get_tls_version c p s).1 = le_decode bytes).
Proof.
  intros H. unfold get_tls_version. rewrite (bpf_probe_read_ok _ _ _ _ H).
  simpl. rewrite to_u16_to_s32. split; [done|].
  intros Hlt. simpl. apply Z.mod_small.
  pose proof (le_decode_range bytes). lia.
Qed.

Lemma get_tls_version_readable_witness :
  get_tls_version SessionScenario.at_write 0x5000 initial_state
  = (0x0304, initial_state).
Proof.
  destruct (get_tls_version_readable SessionScenario.at_write 0x5000
              initial_state [x04; x03; x00; x00]) as [H _].
  - vm_compute. reflexivity.
  - exact H.
Defined.

(** ** Events fit their fields *)

Lemma submitted_fits c v b s :
  (forall k l, pid_cache s !! k = Some l -> leaf_fits l) ->
  0 <= v < 2 ^ 16 -> 0 <= buf_length b < 2 ^ 32 ->
  (buf_is_read b = 0 \/ buf_is_read b = 1) ->
  Forall event_fits (submitted c v b s).
Proof.
  intros Hleaves Hv Hlen Hdir. unfold submitted.
  destruct (pid_cache s !! current_pid c) as [leaf|] eqn:El; [|constructor].
  destruct (read_bytes _ _ _) as [msg|] eqn:Em; [|constructor].
  constructor; [|constructor].
  destruct (Hleaves _ _ El) as [Ha Hp].
  unfold event_fits. simpl.
  pose proof (current_pid_range c). pose proof (read_bytes_length _ _ _ _ Em).
  tauto.
Qed.

Lemma get_tls_version_range c p s : 0 <= (get_tls_version c p s).1 < 2 ^ 16.
Proof.
  unfold get_tls_version. destruct (bpf_probe_read _ _ _) as [ret bytes].
  destruct (nonzero ret); simpl; apply to_u16_range.
Qed.

Lemma fire_tables_fit cfg s p : tables_fit s -> tables_fit (fire cfg s p).
Proof.
  intros [Hleaves Hevents]. destruct p as [c|c|c|c]; simpl.
  - split; [|by rewrite sys_enter_connect_tls_events].
    destruct (observes_ipv4 c) eqn:Ev4.
    + destruct (observes_ipv4_inv c Ev4) as (a & Ha & Hf).
      rewrite (sys_enter_connect_ipv4 _ _ _ Ha Hf). simpl.
      intros k l. destruct (decide (current_pid c = k)) as [->|Hne].
      * rewrite lookup_insert_eq. intros [= <-].
        unfold observed_sockaddr in Ha.
        destruct (read_bytes _ _ _) as [bs|]; [|done].
        injection Ha as <-. unfold leaf_fits, decode_sockaddr_in. simpl.
        pose proof (le_decode_take_range 4 (drop 4 bs)).
        pose proof (le_decode_take_range 2 (drop 2 bs)).
        change (256 ^ Z.of_nat 4) with (2 ^ 32) in *.
        change (256 ^ Z.of_nat 2) with (2 ^ 16) in *. lia.
      * rewrite lookup_insert_ne by done. apply Hleaves.
    + destruct (sys_enter_connect_not_ipv4 c s Ev4) as (-> & _). done.
  - split; [by rewrite SSL_read_pid_cache|by rewrite SSL_read_tls_events].
  - split.
    + intros k l Hk.
      destruct (SSL_read_ret_pid_cache cfg c s k) as [H|H]; [congruence|].
      rewrite H in Hk. by eapply Hleaves.
    + rewrite SSL_read_ret_tls_events. apply Forall_app. split; [done|].
      unfold submitted_at_return.
      destruct (to_s32 (PT_REGS_RC c) =? -1); [constructor|].
      destruct (SSL_read_buffers s !! current_pid c); [|constructor].
      destruct (read_bytes (leaf_tail c) 16 0); [|constructor].
      apply submitted_fits; [done|apply to_u16_range|apply to_u32_range|by right].
  - split.
    + intros k l Hk.
      destruct (SSL_write_pid_cache cfg c s k) as [H|H]; [congruence|].
      rewrite H in Hk. by eapply Hleaves.
    + rewrite SSL_write_tls_events. apply Forall_app. split; [done|].
      apply submitted_fits;
        [done|apply get_tls_version_range|apply to_u32_range|by left].
Qed.

Lemma run_tables_fit cfg ps : forall s, tables_fit s -> tables_fit (run cfg s ps).
Proof.
  unfold run. induction ps as [|p ps IH]; intros s Hs; simpl; [done|].
  apply IH. by apply fire_tables_fit.
Qed.

(** X2: whatever probes fire, in whatever order and with whatever memory behind
    them, every event in the stream fits the record sent to userland: a
    32-bit address, a 16-bit port and version, a 64-byte message, a 32-bit
    length and pid, and a direction that is 0 or 1. *)
Theorem reachable_events_fit cfg ps :
  Forall event_fits (tls_events (run cfg initial_state ps)) /\
  forall k l, pid_cache (run cfg initial_state ps) !! k = Some l -> leaf_fits l.
Proof.
  destruct (run_tables_fit cfg ps initial_state) as [Hl He].
  - split; [|constructor]. intros k l. simpl. by rewrite lookup_empty.
  - by split.
Qed.

(** ** When the connection record is flushed *)

Lemma submitted_length c v b s : (length (submitted c v b s) <= 1)%nat.
Proof.
  unfold submitted. destruct (pid_cache s !! current_pid c); [|simpl; lia].
  destruct (read_bytes _ _ _); simpl; lia.
Qed.

Lemma submitted_same_pid_cache c v b s s' :
  pid_cache s' = pid_cache s -> submitted c v b s' = submitted c v b s.
Proof. unfold submitted. by intros ->. Qed.

Lemma SSL_read_write_pid_cache_eq cfg c v b s :
  pid_cache (SSL_read_write cfg c v (Some b) s)
  = if flushes cfg c v b s then delete (current_pid c) (pid_cache s)
    else pid_cache s.
Proof.
  unfold SSL_read_write, flushes, submitted, bpf_probe_read.
  destruct (pid_cache s !! current_pid c) as [leaf|]; [|done].
  destruct (read_bytes _ _ _) as [msg|]; simpl; [|done].
  by destruct (DIRECTIONS cfg (buf_is_read b)).
Qed.

Lemma SSL_write_pid_cache_eq cfg c s :
  pid_cache (SSL_write cfg c s)
  = if flushes cfg c (get_tls_version c (PT_REGS_PARM1 c) s).1 (write_buffer c) s
    then delete (current_pid c) (pid_cache s) else pid_cache s.
Proof.
  unfold SSL_write.
  pose proof (get_tls_version_tables c (PT_REGS_PARM1 c) s) as H.
  destruct (get_tls_version c (PT_REGS_PARM1 c) s) as [v s1]. simpl in *.
  destruct H as (Hp & _). destruct (parse_session_tables cfg c s1) as (Hp' & _).
  rewrite SSL_read_write_pid_cache_eq. unfold flushes, write_buffer.
  rewrite (submitted_same_pid_cache c v _ (parse_session cfg c s1) s)
    by congruence.
  by rewrite Hp', Hp.
Qed.

Lemma SSL_read_ret_pid_cache_eq cfg c s :
  pid_cache (SSL_read_ret cfg c s)
  = match submitted_at_return c s with
    | [] => pid_cache s
    | _ :: _ => if DIRECTIONS cfg 1 then delete (current_pid c) (pid_cache s)
                else pid_cache s
    end.
Proof.
  unfold SSL_read_ret, submitted_at_return, read_leaf_as_buffer, bpf_probe_read.
  destruct (to_s32 (PT_REGS_RC c) =? -1); [done|].
  destruct (SSL_read_buffers s !! current_pid c) as [leaf|]; [|done].
  destruct (read_bytes (leaf_tail c) 16 0) as [tail|]; simpl; [|done].
  rewrite SSL_read_write_pid_cache_eq. unfold flushes.
  by destruct (submitted _ _ _ _).
Qed.

(** X3: the connection record of the firing process is deleted exactly when the
    handler has submitted an event and [DIRECTIONS] holds for its direction;
    a write or a return whose event is dropped leaves [pid_cache] as it was,
    whatever the policy. *)
Theorem flush_only_after_emission cfg c s :
  pid_cache (SSL_write cfg c s)
  = (if bool_decide (emitted s (SSL_write cfg c s) = []) then pid_cache s
     else if DIRECTIONS cfg 0 then delete (current_pid c) (pid_cache s)
     else pid_cache s) /\
  pid_cache (SSL_read_ret cfg c s)
  = (if bool_decide (emitted s (SSL_read_ret cfg c s) = []) then pid_cache s
     else if DIRECTIONS cfg 1 then delete (current_pid c) (pid_cache s)
     else pid_cache s).
Proof.
  split.
  - rewrite (emitted_app _ _ _ (SSL_write_tls_events cfg c s)).
    rewrite SSL_write_pid_cache_eq. unfold flushes.
    fold (write_buffer c). by destruct (submitted _ _ _ _).
  - rewrite (emitted_app _ _ _ (SSL_read_ret_tls_events cfg c s)).
    rewrite SSL_read_ret_pid_cache_eq. by destruct (submitted_at_return c s).
Qed.

(** ** One process at a time *)

Lemma SSL_read_ret_SSL_read_buffers_other cfg c s k :
  k <> current_pid c ->
  SSL_read_buffers (SSL_read_ret cfg c s) !! k = SSL_read_buffers s !! k.
Proof.
  intros Hk. unfold SSL_read_ret, read_leaf_as_buffer.
  destruct (to_s32 (PT_REGS_RC c) =? -1); [done|].
  destruct (SSL_read_buffers s !! current_pid c) as [leaf|]; [|done].
  destruct (bpf_probe_read _ _ _) as [ret tail].
  destruct (nonzero ret); [done|]. simpl.
  rewrite lookup_delete_ne by done.
  by rewrite SSL_read_write_SSL_read_buffers.
Qed.

Lemma SSL_read_ret_tls_information_cache cfg c s :
  tls_information_cache (SSL_read_ret cfg c s) = tls_information_cache s.
Proof.
  unfold SSL_read_ret, read_leaf_as_buffer.
  destruct (to_s32 (PT_REGS_RC c) =? -1); [done|].
  destruct (SSL_read_buffers s !! current_pid c); [|done].
  split_reads; [done|]. simpl. by rewrite SSL_read_write_tls_information_cache.
Qed.

Lemma SSL_write_SSL_read_buffers cfg c s :
  SSL_read_buffers (SSL_write cfg c s) = SSL_read_buffers s.
Proof.
  unfold SSL_write.
  pose proof (get_tls_version_tables c (PT_REGS_PARM1 c) s) as H.
  destruct (get_tls_version c (PT_REGS_PARM1 c) s) as [v s1]. simpl in *.
  destruct H as (_ & Hb & _). destruct (parse_session_tables cfg c s1) as (_ & Hb' & _).
  by rewrite SSL_read_write_SSL_read_buffers, Hb', Hb.
Qed.

Lemma sys_enter_connect_frame c s :
  SSL_read_buffers (sys_enter_connect c s) = SSL_read_buffers s /\
  tls_information_cache (sys_enter_connect c s) = tls_information_cache s /\
  forall k, k <> current_pid c ->
    pid_cache (sys_enter_connect c s) !! k = pid_cache s !! k.
Proof.
  unfold sys_enter_connect. split_reads; [done|].
  destruct (negb _); [done|]. simpl. split; [done|]. split; [done|].
  intros k Hk. by rewrite lookup_insert_ne.
Qed.

(** X4: a probe that fires in one process leaves the entries of every other
    process in all three tables as they were, and emits nothing in that
    other process's name. *)
Theorem fire_other_process cfg s p k :
  k <> current_pid (probe_context p) ->
  pid_cache (fire cfg s p) !! k = pid_cache s !! k /\
  SSL_read_buffers (fire cfg s p) !! k = SSL_read_buffers s !! k /\
  tls_information_cache (fire cfg s p) !! k = tls_information_cache s !! k /\
  Forall (fun e => ev_pid e <> k) (emitted s (fire cfg s p)).
Proof.
  intros Hk.
  assert (Forall (fun e => ev_pid e <> k) (emitted s (fire cfg s p))) as Hev.
  { destruct (fire_tls_events cfg s p) as (l & Hl & Hpid).
    rewrite (emitted_app _ _ _ Hl). apply Forall_forall. intros e He.
    destruct (Hpid e He) as [-> _]. congruence. }
  repeat split; [| | |exact Hev]; destruct p as [c|c|c|c]; simpl in *.
  - by apply sys_enter_connect_frame.
  - by rewrite SSL_read_pid_cache.
  - rewrite SSL_read_ret_pid_cache_eq. destruct (submitted_at_return c s); [done|].
    destruct (DIRECTIONS cfg 1); [|done]. by rewrite lookup_delete_ne.
  - rewrite SSL_write_pid_cache_eq. destruct (flushes _ _ _ _ _); [|done].
    by rewrite lookup_delete_ne.
  - by destruct (sys_enter_connect_frame c s) as (-> & _).
  - rewrite SSL_read_SSL_read_buffers. by rewrite lookup_insert_ne.
  - by apply SSL_read_ret_SSL_read_buffers_other.
  - by rewrite SSL_write_SSL_read_buffers.
  - by destruct (sys_enter_connect_frame c s) as (_ & -> & _).
  - change (tls_information_cache (SSL_read c s))
      with (tls_information_cache (erase_trace (SSL_read c s))).
    by rewrite SSL_read_erase.
  - by rewrite SSL_read_ret_tls_information_cache.
  - rewrite SSL_write_tls_information_cache.
    destruct (parse_session_tls_information_cache cfg c) as (info & _ & _ & H).
    rewrite H. by rewrite lookup_insert_ne.
Qed.

Lemma fire_other_process_witness :
  let s := SSL_read (Scenario.at_read_entry Scenario.ssl_st_tls12 0x8000)
             Scenario.connected in
  let s' := fire Scenario.cfg_flush s (ReadEntry SessionScenario.other_read_entry) in
  pid_cache s' !! 1234 = pid_cache s !! 1234 /\
  SSL_read_buffers s' !! 1234 = SSL_read_buffers s !! 1234 /\
  tls_information_cache s' !! 1234 = tls_information_cache s !! 1234 /\
  Forall (fun e => ev_pid e <> 1234) (emitted s s').
Proof.
  intros s s'.
  apply (fire_other_process Scenario.cfg_flush s
           (ReadEntry SessionScenario.other_read_entry) 1234).
  vm_compute. discriminate.
Defined.

(** ** How many events *)

Lemma fire_emits_at_most_one cfg s p :
  exists l, tls_events (fire cfg s p) = tls_events s ++ l /\
            (length l <= if may_emit p then 1 else 0)%nat.
Proof.
  destruct p as [c|c|c|c]; simpl.
  - exists []. by rewrite sys_enter_connect_tls_events, app_nil_r.
  - exists []. by rewrite SSL_read_tls_events, app_nil_r.
  - eexists. split; [apply SSL_read_ret_tls_events|].
    unfold submitted_at_return.
    destruct (to_s32 (PT_REGS_RC c) =? -1); [simpl; lia|].
    destruct (SSL_read_buffers s !! current_pid c); [|simpl; lia].
    destruct (read_bytes (leaf_tail c) 16 0); [|simpl; lia].
    apply submitted_length.
  - eexists. split; [apply SSL_write_tls_events|]. apply submitted_length.
Qed.

(** X5: the stream is append-only, and a run adds at most one event for each
    write entry and each read return in it: connection observations and read
    entries never emit. *)
Theorem run_event_count cfg ps s :
  tls_events (run cfg s ps) = tls_events s ++ emitted s (run cfg s ps) /\
  (length (emitted s (run cfg s ps))
   <= length (filter (fun p => may_emit p = true) ps))%nat.
Proof.
  assert (exists l, tls_events (run cfg s ps) = tls_events s ++ l /\
                    (length l <= length (filter (fun p => may_emit p = true) ps))%nat)
    as (l & Hl & Hlen).
  { revert s. unfold run. induction ps as [|p ps IH]; intros s; simpl.
    - exists []. by rewrite app_nil_r.
    - destruct (IH (fire cfg s p)) as (l & Hl & Hlen).
      destruct (fire_emits_at_most_one cfg s p) as (l0 & Hl0 & Hlen0).
      exists (l0 ++ l). split; [by rewrite Hl, Hl0, app_assoc|].
      rewrite length_app, filter_cons.
      destruct (may_emit p); simpl.
      + destruct (decide (true = true)); [simpl; lia|done].
      + destruct (decide (false = true)); [done|lia]. }
  by rewrite (emitted_app _ _ _ Hl).
Qed.

(** ** Flush policies *)

Lemma fire_emission_flushes cfg s p l e :
  (forall d, DIRECTIONS cfg d = true) ->
  tls_events (fire cfg s p) = tls_events s ++ l -> e ∈ l ->
  pid_cache (fire cfg s p) !! ev_pid e = None.
Proof.
  intros Hall Hl He. destruct p as [c|c|c|c]; simpl in *.
  - rewrite sys_enter_connect_tls_events in Hl.
    rewrite <- (app_nil_r (tls_events s)) in Hl at 1.
    apply app_inv_head in Hl as <-. by apply elem_of_nil in He.
  - rewrite SSL_read_tls_events in Hl.
    rewrite <- (app_nil_r (tls_events s)) in Hl at 1.
    apply app_inv_head in Hl as <-. by apply elem_of_nil in He.
  - rewrite SSL_read_ret_tls_events in Hl. apply app_inv_head in Hl as <-.
    rewrite SSL_read_ret_pid_cache_eq.
    assert (ev_pid e = current_pid c) as ->.
    { unfold submitted_at_return in He.
      destruct (to_s32 (PT_REGS_RC c) =? -1); [by apply elem_of_nil in He|].
      destruct (SSL_read_buffers s !! current_pid c); [|by apply elem_of_nil in He].
      destruct (read_bytes (leaf_tail c) 16 0); [|by apply elem_of_nil in He].
      by apply submitted_pid in He as [-> _]. }
    destruct (submitted_at_return c s); [by apply elem_of_nil in He|].
    rewrite Hall. apply lookup_delete_eq.
  - rewrite SSL_write_tls_events in Hl. apply app_inv_head in Hl as <-.
    rewrite SSL_write_pid_cache_eq. unfold flushes. fold (write_buffer c) in He.
    apply submitted_pid in He as He'. destruct He' as [-> _].
    destruct (submitted _ _ _ _); [by apply elem_of_nil in He|].
    rewrite Hall. apply lookup_delete_eq.
Qed.

Lemma events_of_none pid l :
  Forall (fun e => ev_pid e <> pid) l -> events_of pid l = [].
Proof. apply filter_none. Qed.

(** X6: under a policy that flushes in both directions, one connection record
    yields at most one event: along any run without an IPv4 connection
    observation of the process, at most one event names that process. *)
Theorem flush_policy_one_event_per_record cfg pid ps : forall s,
  (forall d, DIRECTIONS cfg d = true) ->
  forallb (fun p => negb (ipv4_connect_of pid p)) ps = true ->
  (length (events_of pid (emitted s (run cfg s ps))) <= 1)%nat.
Proof.
  intros s Hall Hps.
  assert (exists l, tls_events (run cfg s ps) = tls_events s ++ l /\
                    (length (events_of pid l) <= 1)%nat) as (l & Hl & Hlen).
  { revert s Hps. unfold run.
    induction ps as [|p ps IH]; intros s Hps; simpl in *.
    - exists []. rewrite app_nil_r. split; [done|]. simpl. lia.
    - apply andb_true_iff in Hps as [Hp Hps]. apply negb_true_iff in Hp.
      destruct (fire_emits_at_most_one cfg s p) as (l0 & Hl0 & Hlen0).
      destruct (decide (events_of pid l0 = [])) as [Hnone|Hsome].
      + destruct (IH (fire cfg s p) Hps) as (l & Hl & Hlen).
        exists (l0 ++ l). split; [by rewrite Hl, Hl0, app_assoc|].
        unfold events_of in *. by rewrite filter_app, Hnone.
      + assert (exists e, e ∈ l0 /\ ev_pid e = pid) as (e & He & Hpid).
        { destruct (events_of pid l0) as [|e t] eqn:E; [done|].
          assert (e ∈ events_of pid l0) as Hin by (rewrite E; left).
          apply list_elem_of_filter in Hin as [? ?]. by exists e. }
        pose proof (fire_emission_flushes cfg s p l0 e Hall Hl0 He) as Hgone.
        rewrite Hpid in Hgone.
        destruct (run_without_record cfg pid ps _ Hgone Hps) as (_ & l & Hl & Hno).
        exists (l0 ++ l). split; [by unfold run in Hl; rewrite Hl, Hl0, app_assoc|].
        unfold events_of in *. rewrite filter_app, length_app.
        fold (events_of pid l). rewrite (events_of_none _ _ Hno). simpl.
        pose proof (length_filter (fun e => ev_pid e = pid) l0).
        destruct (may_emit p); lia. }
  by rewrite (emitted_app _ _ _ Hl).
Qed.

Lemma flush_policy_one_event_per_record_witness :
  let w := WriteEntry (Scenario.at_write Scenario.hundred_bytes 100) in
  (length (events_of 1234
             (emitted Scenario.connected
                (run Scenario.cfg_flush Scenario.connected [w; w; w]))) <= 1)%nat.
Proof.
  intros w.
  apply (flush_policy_one_event_per_record Scenario.cfg_flush 1234 [w; w; w]
           Scenario.connected).
  - intros d. reflexivity.
  - vm_compute. reflexivity.
Defined.

(** X7: without a flush policy no record is ever removed: along any run the
    processes that have a connection record keep one. *)
Theorem keep_policy_never_forgets cfg ps : forall s,
  (forall d, DIRECTIONS cfg d = false) ->
  dom (pid_cache s) ⊆ dom (pid_cache (run cfg s ps)).
Proof.
  intros s Hnone. revert s. unfold run.
  induction ps as [|p ps IH]; intros s; simpl; [done|].
  etrans; [|apply IH].
  destruct p as [c|c|c|c]; simpl.
  - unfold sys_enter_connect. split_reads; [done|].
    destruct (negb _); [done|]. simpl. rewrite dom_insert_L. set_solver.
  - by rewrite SSL_read_pid_cache.
  - rewrite SSL_read_ret_pid_cache_eq. destruct (submitted_at_return c s); [done|].
    by rewrite Hnone.
  - rewrite SSL_write_pid_cache_eq. unfold flushes.
    destruct (submitted _ _ _ _); [done|]. by rewrite Hnone.
Qed.

Lemma keep_policy_never_forgets_witness :
  let w := WriteEntry (Scenario.at_write Scenario.hundred_bytes 100) in
  dom (pid_cache Scenario.connected)
  ⊆ dom (pid_cache (run Scenario.cfg_keep Scenario.connected [w; w])).
Proof.
  intros w.
  apply (keep_policy_never_forgets Scenario.cfg_keep [w; w] Scenario.connected).
  intros d. reflexivity.
Defined.

(** ** The read routine, entry to return *)

Lemma run_read_entries cfg cs : forall s,
  pid_cache (run cfg s (ReadEntry <$> cs)) = pid_cache s /\
  tls_events (run cfg s (ReadEntry <$> cs)) = tls_events s.
Proof.
  unfold run. induction cs as [|c cs IH]; intros s; [done|].
  rewrite fmap_cons. cbn [foldl fire].
  destruct (IH (SSL_read c s)) as [-> ->].
  by rewrite SSL_read_pid_cache, SSL_read_tls_events.
Qed.

(** X8: entry then return: whatever read entries were observed before, when the
    last one is by the returning process and the return value is not -1, the
    return probe emits exactly one event, copied from the buffer address of
    that last entry, with the cached peer, the return value as length and
    direction read; the pending buffer is gone afterwards. *)
Theorem read_entry_then_return cfg cs cE cR s conn tail window :
  current_pid cE = current_pid cR ->
  to_s32 (PT_REGS_RC cR) <> -1 ->
  pid_cache s !! current_pid cR = Some conn ->
  read_bytes (leaf_tail cR) 16 0 = Some tail ->
  read_bytes (user_mem cR) MESSAGE_MAX_LEN (to_u64 (PT_REGS_PARM2 cE)) = Some window ->
  let s1 := run cfg s (ReadEntry <$> (cs ++ [cE])) in
  let s2 := SSL_read_ret cfg cR s1 in
  emitted s s1 = [] /\
  emitted s1 s2
  = [ {| ev_addr := leaf_addr conn; ev_port := leaf_port conn;
         ev_tls_version := version_after_leaf tail;
         ev_comm := current_comm cR; ev_message := window;
         ev_message_length := to_u32 (to_s32 (PT_REGS_RC cR));
         ev_pid := current_pid cR; ev_is_read := 1 |} ] /\
  SSL_read_buffers s2 !! current_pid cR = None.
Proof.
  intros Hpid Hrc%Z.eqb_neq Hconn Htail Hwin s1 s2.
  destruct (run_read_entries cfg (cs ++ [cE]) s) as [Hp He].
  fold s1 in Hp, He.
  assert (SSL_read_buffers s1 !! current_pid cR = Some (to_u64 (PT_REGS_PARM2 cE)))
    as Hleaf.
  { unfold s1. rewrite fmap_app, run_app. simpl.
    rewrite SSL_read_SSL_read_buffers, Hpid. apply lookup_insert_eq. }
  split; [by apply emitted_same|]. split.
  - apply emitted_app. unfold s2. rewrite SSL_read_ret_tls_events.
    unfold submitted_at_return, submitted.
    rewrite Hrc, Hleaf, Htail, Hp, Hconn. cbn [finalized_buffer buf_ptr].
    by rewrite Hwin.
  - unfold s2. rewrite (SSL_read_ret_SSL_read_buffers _ _ _ _ Htail), Hrc.
    apply lookup_delete_eq.
Qed.

Lemma read_entry_then_return_witness :
  let cA := Scenario.at_read_entry Scenario.ssl_st_tls12 0x9000 in
  let cE := Scenario.at_read_entry Scenario.ssl_st_tls12 0x8000 in
  let cR := Scenario.at_read_return Scenario.hundred_bytes 50 in
  let s1 := run Scenario.cfg_keep Scenario.connected (ReadEntry <$> ([cA] ++ [cE])) in
  let s2 := SSL_read_ret Scenario.cfg_keep cR s1 in
  emitted Scenario.connected s1 = [] /\
  emitted s1 s2
  = [ {| ev_addr := 0x057100cb; ev_port := 0xbb01;
         ev_tls_version := version_after_leaf Scenario.next_element_header;
         ev_comm := current_comm cR; ev_message := replicate 64 x41;
         ev_message_length := to_u32 (to_s32 (PT_REGS_RC cR));
         ev_pid := current_pid cR; ev_is_read := 1 |} ] /\
  SSL_read_buffers s2 !! current_pid cR = None.
Proof.
  intros cA cE cR.
  apply (read_entry_then_return Scenario.cfg_keep [cA] cE cR Scenario.connected
           {| leaf_addr := 0x057100cb; leaf_port := 0xbb01 |}
           Scenario.next_element_header (replicate 64 x41));
    [vm_compute; reflexivity | vm_compute; discriminate | vm_compute; reflexivity ..].
Defined.

(** X9: a return consumes the pending buffer: after a return that did not report
    -1, a second return of the same process with no entry in between changes
    nothing and emits nothing. *)
Theorem second_return_is_dropped cfg c c' s tail :
  current_pid c' = current_pid c ->
  to_s32 (PT_REGS_RC c) <> -1 ->
  read_bytes (leaf_tail c) 16 0 = Some tail ->
  let s1 := SSL_read_ret cfg c s in
  SSL_read_ret cfg c' s1 = s1 /\ emitted s1 (SSL_read_ret cfg c' s1) = [].
Proof.
  intros Hpid Hrc%Z.eqb_neq Htail s1.
  assert (SSL_read_ret cfg c' s1 = s1) as H.
  { unfold SSL_read_ret at 1.
    destruct (to_s32 (PT_REGS_RC c') =? -1); [done|].
    unfold s1. rewrite (SSL_read_ret_SSL_read_buffers _ _ _ _ Htail), Hrc, Hpid.
    by rewrite lookup_delete_eq. }
  split; [exact H|]. rewrite H. by apply emitted_same.
Qed.

Lemma second_return_is_dropped_witness :
  let cE := Scenario.at_read_entry Scenario.ssl_st_tls12 0x8000 in
  let cR := Scenario.at_read_return Scenario.hundred_bytes 50 in
  let s1 := SSL_read_ret Scenario.cfg_keep cR (SSL_read cE Scenario.connected) in
  SSL_read_ret Scenario.cfg_keep cR s1 = s1 /\
  emitted s1 (SSL_read_ret Scenario.cfg_keep cR s1) = [].
Proof.
  intros cE cR.
  apply (second_return_is_dropped Scenario.cfg_keep cR cR
           (SSL_read cE Scenario.connected) Scenario.next_element_header);
    [reflexivity | vm_compute; discriminate | vm_compute; reflexivity].
Defined.

Lemma fire_SSL_read_buffers_other cfg s p pid :
  read_probe_of pid p = false ->
  SSL_read_buffers (fire cfg s p) !! pid = SSL_read_buffers s !! pid.
Proof.
  intros Hp. destruct p as [c|c|c|c]; simpl in *.
  - by destruct (sys_enter_connect_frame c s) as (-> & _).
  - apply Z.eqb_neq in Hp. rewrite SSL_read_SSL_read_buffers.
    by rewrite lookup_insert_ne.
  - apply Z.eqb_neq in Hp. by apply SSL_read_ret_SSL_read_buffers_other.
  - by rewrite SSL_write_SSL_read_buffers.
Qed.

(** X10: a pending buffer stays as the entry stored it until a read probe fires
    in the same process: connection observations, writes, and the reads of
    other processes leave it alone. *)
Theorem pending_buffer_persists cfg cE qs s :
  forallb (fun q => negb (read_probe_of (current_pid cE) q)) qs = true ->
  SSL_read_buffers (run cfg (SSL_read cE s) qs) !! current_pid cE
  = Some (to_u64 (PT_REGS_PARM2 cE)).
Proof.
  intros Hqs.
  assert (forall s0, SSL_read_buffers (run cfg s0 qs) !! current_pid cE
                     = SSL_read_buffers s0 !! current_pid cE) as Hsame.
  { unfold run. induction qs as [|q qs IH]; intros s0; simpl in *; [done|].
    apply andb_true_iff in Hqs as [Hq Hqs]. apply negb_true_iff in Hq.
    rewrite (IH Hqs). by apply fire_SSL_read_buffers_other. }
  rewrite Hsame, SSL_read_SSL_read_buffers. apply lookup_insert_eq.
Qed.

Lemma pending_buffer_persists_witness :
  let cE := Scenario.at_read_entry Scenario.ssl_st_tls12 0x8000 in
  let qs := [WriteEntry (Scenario.at_write Scenario.hundred_bytes 100);
             Connect (Scenario.at_connect Scenario.sockaddr_v6);
             ReadEntry SessionScenario.other_read_entry] in
  SSL_read_buffers (run Scenario.cfg_flush (SSL_read cE Scenario.connected) qs)
    !! current_pid cE
  = Some (to_u64 (PT_REGS_PARM2 cE)).
Proof.
  intros cE qs.
  apply (pending_buffer_persists Scenario.cfg_flush cE qs Scenario.connected).
  vm_compute. reflexivity.
Defined.

(** ** Writes that are dropped *)

(** X11: [SSL_write] emits nothing exactly when the process has no connection
    record or the 64-byte window at the buffer address cannot be copied. In
    the second case the failure is the last line of the trace pipe and the
    record stays, whatever the flush policy. *)
Theorem write_dropped_iff cfg c s :
  (emitted s (SSL_write cfg c s) = [] <->
   pid_cache s !! current_pid c = None \/
   read_bytes (user_mem c) MESSAGE_MAX_LEN (to_u64 (PT_REGS_PARM2 c)) = None) /\
  (is_Some (pid_cache s !! current_pid c) /\
   read_bytes (user_mem c) MESSAGE_MAX_LEN (to_u64 (PT_REGS_PARM2 c)) = None ->
   last (trace_pipe (SSL_write cfg c s))
     = Some "SSL_read_write() - bpf_probe_read() failed"%string /\
   pid_cache (SSL_write cfg c s) = pid_cache s).
Proof.
  split.
  - rewrite (emitted_app _ _ _ (SSL_write_tls_events cfg c s)).
    unfold submitted. cbn [buf_ptr].
    destruct (pid_cache s !! current_pid c) as [leaf|]; [|by split; [left|]].
    destruct (read_bytes _ _ _) as [msg|]; [|by split; [right|]].
    split; [done|]. by intros [?|?].
  - intros [[leaf Hleaf] Hfail]. split.
    + unfold SSL_write.
      pose proof (get_tls_version_tables c (PT_REGS_PARM1 c) s) as H.
      destruct (get_tls_version c (PT_REGS_PARM1 c) s) as [v s1]. simpl in H.
      destruct H as (Hp & _).
      destruct (parse_session_tables cfg c s1) as (Hp' & _).
      unfold SSL_read_write. rewrite Hp', Hp, Hleaf. cbn [buf_ptr].
      rewrite (bpf_probe_read_failed _ _ _ Hfail). simpl. apply last_snoc.
    + rewrite SSL_write_pid_cache_eq. unfold flushes, submitted.
      cbn [write_buffer buf_ptr]. by rewrite Hleaf, Hfail.
Qed.

(** ** Session secrets, copy by copy *)

Lemma read_bytes_unmapped (m : memory) n a :
  (forall x, m x = None) -> read_bytes m (S n) a = None.
Proof. intros H. simpl. by rewrite H. Qed.

(** X12: with nothing readable behind the handle, [parse_session] still attempts
    its five copies and still stores a record for the process: one that is
    all zeroes, with the five failures on the trace pipe in order. *)
Theorem parse_session_unreadable cfg c s :
  (forall a, user_mem c a = None) ->
  tls_information_cache (parse_session cfg c s)
  = <[current_pid c := {| ciphersuite := replicate CIPHERSUITE_MAX_LEN x00;
                          master_secret := replicate MASTER_SECRET_MAX_LEN x00 |}]>
      (tls_information_cache s) /\
  trace_pipe (parse_session cfg c s)
  = trace_pipe s ++
    [ "parse_session() #1 - bpf_probe_read() failed";
      "parse_session() #2 - bpf_probe_read() failed";
      "parse_session() #3 - bpf_probe_read() failed";
      "parse_session() #4 - bpf_probe_read() failed";
      "parse_session() #5 - bpf_probe_read() failed" ]%string.
Proof.
  intros Hnone. unfold parse_session.
  assert (forall n a, bpf_probe_read (user_mem c) (S n) a
                      = (- EFAULT, replicate (S n) x00)) as Hfail.
  { intros n a. apply bpf_probe_read_failed. by apply read_bytes_unmapped. }
  rewrite (Hfail 7%nat). cbv beta iota.
  change MASTER_SECRET_MAX_LEN with 48%nat.
  change CIPHERSUITE_MAX_LEN with 32%nat.
  rewrite (Hfail 47%nat). cbv beta iota.
  rewrite (Hfail 7%nat). cbv beta iota.
  rewrite (Hfail 7%nat). cbv beta iota.
  rewrite (Hfail 31%nat). cbv beta iota.
  split; [reflexivity|]. simpl. by rewrite <- !app_assoc.
Qed.

Lemma parse_session_unreadable_witness :
  tls_information_cache
    (parse_session Scenario.cfg_keep SessionScenario.at_write_unreadable
       Scenario.connected) !! 1234
  = Some {| ciphersuite := replicate 32 x00; master_secret := replicate 48 x00 |}.
Proof.
  destruct (parse_session_unreadable Scenario.cfg_keep
              SessionScenario.at_write_unreadable Scenario.connected) as [H _].
  - intros a. reflexivity.
  - rewrite H. vm_compute. reflexivity.
Defined.

(** X13: the pointer chain: when the session pointer, the cipher pointer, the
    name pointer and the name can be copied, the stored record holds the 32
    bytes of the name found through them; its master secret is the 48 bytes
    at session + [MASTER_SECRET_OFFSET], or zeroes when that one copy fails,
    in which case the failure is the only line added to the trace pipe. *)
Theorem parse_session_chain cfg c s b1 b3 b4 cs :
  read_bytes (user_mem c) 8 (to_u64 (PT_REGS_PARM1 c + SSL_SESSION_OFFSET cfg))
    = Some b1 ->
  read_bytes (user_mem c) 8 (to_u64 (le_decode b1 + SSL_CIPHER_OFFSET cfg))
    = Some b3 ->
  read_bytes (user_mem c) 8 (to_u64 (le_decode b3 + 8)) = Some b4 ->
  read_bytes (user_mem c) CIPHERSUITE_MAX_LEN (le_decode b4) = Some cs ->
  let ms := read_bytes (user_mem c) MASTER_SECRET_MAX_LEN
              (to_u64 (le_decode b1 + MASTER_SECRET_OFFSET cfg)) in
  tls_information_cache (parse_session cfg c s)
  = <[current_pid c :=
        {| ciphersuite := cs;
           master_secret := default (replicate MASTER_SECRET_MAX_LEN x00) ms |}]>
      (tls_information_cache s) /\
  trace_pipe (parse_session cfg c s)
  = trace_pipe s ++
    match ms with
    | Some _ => []
    | None => ["parse_session() #2 - bpf_probe_read() failed"%string]
    end.
Proof.
  intros H1 H3 H4 H5 ms. unfold parse_session.
  rewrite (bpf_probe_read_ok _ _ _ _ H1). cbv beta iota.
  rewrite (bpf_probe_read_ok _ _ _ _ H3). cbv beta iota.
  rewrite (bpf_probe_read_ok _ _ _ _ H4). cbv beta iota.
  rewrite (bpf_probe_read_ok _ _ _ _ H5). cbv beta iota.
  unfold bpf_probe_read. fold ms. destruct ms as [secret|]; simpl.
  - split; [reflexivity|]. by rewrite app_nil_r.
  - split; reflexivity.
Qed.

Lemma parse_session_chain_witness :
  tls_information_cache
    (parse_session Scenario.cfg_keep SessionScenario.at_write Scenario.connected)
  = <[1234 := {| ciphersuite := SessionScenario.cipher_name;
                 master_secret := SessionScenario.secret |}]> ∅ /\
  trace_pipe
    (parse_session Scenario.cfg_keep SessionScenario.at_write Scenario.connected)
  = [].
Proof.
  apply (parse_session_chain Scenario.cfg_keep SessionScenario.at_write
           Scenario.connected
           (SessionScenario.pointer [x00; x00; x01])
           (SessionScenario.pointer [x00; x00; x02])
           (SessionScenario.pointer [x00; x00; x03])
           SessionScenario.cipher_name);
    vm_compute; reflexivity.
Defined.

(** ** The write routine, from handle to event *)

(** X14: a write with a readable handle, a cached record and a readable window
    emits one event that carries the low 16 bits of the handle's version
    field as read at this very call, the cached peer, the caller's name, the
    64 bytes at the buffer and the requested length. *)
Theorem write_event cfg c s conn window version :
  pid_cache s !! current_pid c = Some conn ->
  read_bytes (user_mem c) MESSAGE_MAX_LEN (to_u64 (PT_REGS_PARM2 c)) = Some window ->
  read_bytes (user_mem c) 4 (PT_REGS_PARM1 c) = Some version ->
  emitted s (SSL_write cfg c s)
  = [ {| ev_addr := leaf_addr conn; ev_port := leaf_port conn;
         ev_tls_version := le_decode version mod 2 ^ 16;
         ev_comm := current_comm c; ev_message := window;
         ev_message_length := to_u32 (PT_REGS_PARM3 c);
         ev_pid := current_pid c; ev_is_read := 0 |} ].
Proof.
  intros Hconn Hwin Hver. apply emitted_app. rewrite SSL_write_tls_events.
  unfold submitted. cbn [buf_ptr]. rewrite Hconn, Hwin.
  destruct (get_tls_version_readable c (PT_REGS_PARM1 c) s version Hver) as [-> _].
  reflexivity.
Qed.

Lemma write_event_witness :
  emitted Scenario.connected
    (SSL_write Scenario.cfg_keep SessionScenario.at_write Scenario.connected)
  = [ {| ev_addr := 0x057100cb; ev_port := 0xbb01; ev_tls_version := 0x0304;
         ev_comm := Scenario.comm_curl; ev_message := replicate 64 x41;
         ev_message_length := 100; ev_pid := 1234; ev_is_read := 0 |} ].
Proof.
  apply (write_event Scenario.cfg_keep SessionScenario.at_write Scenario.connected
           {| leaf_addr := 0x057100cb; leaf_port := 0xbb01 |}
           (replicate 64 x41) [x04; x03; x00; x00]);
    vm_compute; reflexivity.
Defined.

(** ** How long session secrets stay *)

Lemma fire_tls_information_cache_other cfg s p pid :
  write_probe_of pid p = false ->
  tls_information_cache (fire cfg s p) !! pid = tls_information_cache s !! pid.
Proof.
  intros Hp. destruct p as [c|c|c|c]; simpl in *.
  - by destruct (sys_enter_connect_frame c s) as (_ & -> & _).
  - change (tls_information_cache (SSL_read c s))
      with (tls_information_cache (erase_trace (SSL_read c s))).
    by rewrite SSL_read_erase.
  - by rewrite SSL_read_ret_tls_information_cache.
  - apply Z.eqb_neq in Hp. rewrite SSL_write_tls_information_cache.
    destruct (parse_session_tls_information_cache cfg c) as (info & _ & _ & H).
    rewrite H. by rewrite lookup_insert_ne.
Qed.

(** X15: the secrets stored for a process are those of its latest write: no
    probe other than a write entry of the same process changes them. *)
Theorem session_secrets_persist cfg pid ps : forall s,
  forallb (fun p => negb (write_probe_of pid p)) ps = true ->
  tls_information_cache (run cfg s ps) !! pid = tls_information_cache s !! pid.
Proof.
  unfold run. induction ps as [|p ps IH]; intros s Hps; simpl in *; [done|].
  apply andb_true_iff in Hps as [Hp Hps]. apply negb_true_iff in Hp.
  rewrite (IH _ Hps). by apply fire_tls_information_cache_other.
Qed.

Lemma session_secrets_persist_witness :
  let s := SSL_write Scenario.cfg_keep SessionScenario.at_write Scenario.connected in
  let ps := [ReadEntry (Scenario.at_read_entry Scenario.ssl_st_tls12 0x8000);
             ReadReturn (Scenario.at_read_return Scenario.hundred_bytes 50);
             Connect (Scenario.at_connect Scenario.sockaddr_v4_earlier)] in
  tls_information_cache (run Scenario.cfg_keep s ps) !! 1234
  = tls_information_cache s !! 1234.
Proof.
  intros s ps.
  apply (session_secrets_persist Scenario.cfg_keep 1234 ps s).
  vm_compute. reflexivity.
Defined.

(** ** Events do not depend on the offsets *)

Lemma SSL_read_ret_SSL_read_buffers_eq cfg c s :
  SSL_read_buffers (SSL_read_ret cfg c s)
  = if to_s32 (PT_REGS_RC c) =? -1 then SSL_read_buffers s
    else match SSL_read_buffers s !! current_pid c,
               read_bytes (leaf_tail c) 16 0 with
         | Some _, Some _ => delete (current_pid c) (SSL_read_buffers s)
         | _, _ => SSL_read_buffers s
         end.
Proof.
  unfold SSL_read_ret, read_leaf_as_buffer, bpf_probe_read.
  destruct (to_s32 (PT_REGS_RC c) =? -1); [done|].
  destruct (SSL_read_buffers s !! current_pid c) as [leaf|]; [|done].
  destruct (read_bytes (leaf_tail c) 16 0); simpl; [|done].
  by rewrite SSL_read_write_SSL_read_buffers.
Qed.

Lemma sys_enter_connect_pid_cache c s s' :
  pid_cache s = pid_cache s' ->
  pid_cache (sys_enter_connect c s) = pid_cache (sys_enter_connect c s').
Proof.
  intros H. unfold sys_enter_connect. split_reads; [done|].
  destruct (negb _); [done|]. simpl. by rewrite H.
Qed.

Lemma submitted_at_return_same c s s' :
  pid_cache s = pid_cache s' -> SSL_read_buffers s = SSL_read_buffers s' ->
  submitted_at_return c s = submitted_at_return c s'.
Proof. unfold submitted_at_return, submitted. by intros -> ->. Qed.

Lemma get_tls_version_fst c p s s' :
  (get_tls_version c p s).1 = (get_tls_version c p s').1.
Proof. unfold get_tls_version. by split_reads. Qed.

Lemma fire_same_events cfg cfg' s s' p :
  (forall d, DIRECTIONS cfg d = DIRECTIONS cfg' d) ->
  same_events s s' -> same_events (fire cfg s p) (fire cfg' s' p).
Proof.
  intros Hdir (Hp & Hb & He). destruct p as [c|c|c|c]; simpl.
  - split; [by apply sys_enter_connect_pid_cache|].
    destruct (sys_enter_connect_frame c s) as (-> & _).
    destruct (sys_enter_connect_frame c s') as (-> & _).
    by rewrite !sys_enter_connect_tls_events.
  - split; [by rewrite !SSL_read_pid_cache|].
    by rewrite !SSL_read_SSL_read_buffers, !SSL_read_tls_events, Hb, He.
  - split; [|split].
    + rewrite !SSL_read_ret_pid_cache_eq.
      by rewrite (submitted_at_return_same c s s' Hp Hb), Hdir, Hp.
    + by rewrite !SSL_read_ret_SSL_read_buffers_eq, Hb.
    + rewrite !SSL_read_ret_tls_events.
      by rewrite (submitted_at_return_same c s s' Hp Hb), He.
  - split; [|split].
    + rewrite !SSL_write_pid_cache_eq. unfold flushes.
      rewrite (submitted_same_pid_cache c _ _ s' s Hp).
      rewrite (get_tls_version_fst c _ s s').
      by rewrite Hdir, Hp.
    + by rewrite !SSL_write_SSL_read_buffers.
    + rewrite !SSL_write_tls_events.
      rewrite (submitted_same_pid_cache c _ _ s' s Hp).
      by rewrite (get_tls_version_fst c _ s s'), He.
Qed.

(** X16: the offsets into the traced library's structures reach nothing but the
    session secrets: two loads of the program that differ only in their
    offsets produce, on the same probes, the same events, the same
    connection records and the same pending buffers. *)
Theorem events_do_not_depend_on_offsets cfg cfg' ps : forall s,
  (forall d, DIRECTIONS cfg d = DIRECTIONS cfg' d) ->
  tls_events (run cfg s ps) = tls_events (run cfg' s ps) /\
  pid_cache (run cfg s ps) = pid_cache (run cfg' s ps) /\
  SSL_read_buffers (run cfg s ps) = SSL_read_buffers (run cfg' s ps).
Proof.
  intros s Hdir.
  assert (forall s1 s2, same_events s1 s2 ->
                        same_events (run cfg s1 ps) (run cfg' s2 ps)) as H.
  { unfold run. induction ps as [|p ps IH]; intros s1 s2 Hs; simpl; [done|].
    apply IH. by apply fire_same_events. }
  destruct (H s s) as (Hp & Hb & He); [done|]. done.
Qed.

Lemma events_do_not_depend_on_offsets_witness :
  let cfg' := {| SSL_SESSION_OFFSET := 0; MASTER_SECRET_OFFSET := 8;
                 SSL_CIPHER_OFFSET := 16; DIRECTIONS := fun _ => false |} in
  let ps := [WriteEntry SessionScenario.at_write;
             ReadEntry (Scenario.at_read_entry Scenario.ssl_st_tls12 0x8000)] in
  tls_events (run Scenario.cfg_keep Scenario.connected ps)
    = tls_events (run cfg' Scenario.connected ps) /\
  pid_cache (run Scenario.cfg_keep Scenario.connected ps)
    = pid_cache (run cfg' Scenario.connected ps) /\
  SSL_read_buffers (run Scenario.cfg_keep Scenario.connected ps)
    = SSL_read_buffers (run cfg' Scenario.connected ps).
Proof.
  intros cfg' ps.
  apply (events_do_not_depend_on_offsets Scenario.cfg_keep cfg' ps Scenario.connected).
  intros d. reflexivity.
Defined.
